(** * The serving controller of the tablet server (go/vt/tabletserver/tabletserver.go)

    A shallow embedding of the controller: the serving state machine,
    request admission (startRequest / endRequest), the request wrapper
    (execRequest, handleError), the transactional entry points, ExecuteBatch,
    SplitQuery and the stream-health fan-out.  One call of a method is one
    function on the controller's state; the mutexes guard single calls and are
    not represented.  Logging, statistics, the status-page history and the
    shutdown timer only observe the run and are left out. *)

From Stdlib Require Import ZArith Ascii String List Bool Lia DecimalString.
From stdpp Require Import gmap strings list fin_maps.

Set Warnings "-clear-no-such-hyp".

Open Scope Z_scope.


(** ** Data model *)

(** The serving states, in the order of the [iota] block. *)
Inductive State : Type :=
| StateNotConnected
| StateNotServing
| StateServing
| StateTransitioning
| StateShuttingDown.

#[global] Instance State_eq_dec : EqDecision State.
Proof. solve_decision. Defined.

(** [stateName] names every state; names overlap. *)
Definition stateName (st : State) : string :=
  match st with
  | StateNotConnected => "NOT_SERVING"
  | StateNotServing => "NOT_SERVING"
  | StateServing => "SERVING"
  | StateTransitioning => "NOT_SERVING"
  | StateShuttingDown => "SHUTTING_DOWN"
  end.

(** topodatapb.TabletType and querypb.SplitQueryRequest_Algorithm are
    generated protobuf enums: 32-bit integers on the Go side, so a request can
    carry a number that names no constant. *)
Definition TabletType : Type := Z.
Definition TabletType_MASTER : TabletType := 1.
Definition TabletType_REPLICA : TabletType := 2.
Definition TabletType_RDONLY : TabletType := 3.

Definition SplitQueryRequest_Algorithm : Type := Z.
Definition SplitQueryRequest_EQUAL_SPLITS : SplitQueryRequest_Algorithm := 0.
Definition SplitQueryRequest_FULL_SCAN : SplitQueryRequest_Algorithm := 1.

(** vtrpcpb.ErrorCode, used here only as a tag. *)
Inductive ErrorCode : Type :=
| ErrorCode_SUCCESS
| ErrorCode_CANCELLED
| ErrorCode_UNKNOWN_ERROR
| ErrorCode_BAD_INPUT
| ErrorCode_DEADLINE_EXCEEDED
| ErrorCode_INTEGRITY_ERROR
| ErrorCode_PERMISSION_DENIED
| ErrorCode_RESOURCE_EXHAUSTED
| ErrorCode_QUERY_NOT_SERVED
| ErrorCode_NOT_IN_TX
| ErrorCode_INTERNAL_ERROR
| ErrorCode_TRANSIENT_ERROR
| ErrorCode_UNAUTHENTICATED.

#[global] Instance ErrorCode_eq_dec : EqDecision ErrorCode.
Proof. solve_decision. Defined.

(** querypb.Target; a request carries a pointer to one, which may be nil. *)
Record Target : Type := mkTarget {
  Keyspace : string;
  Shard : string;
  Target_TabletType : TabletType
}.

(** tabletenv.TabletError, with the four fields handleError copies. *)
Record TabletError : Type := mkTabletError {
  Message : string;
  SQLError : Z;
  SQLState : string;
  TE_ErrorCode : ErrorCode
}.

(** A Go [error] value: a *TabletError or any other error, which is known
    by its text only. *)
Inductive error : Type :=
| TabletErr (terr : TabletError)
| OtherErr (text : string).

(** tabletenv.NewTabletError: the formatted message and the code; the MySQL
    error number and state stay at their zero values.  The format string and
    its arguments are passed already joined. *)
Definition NewTabletError (code : ErrorCode) (msg : string) : TabletError :=
  {| Message := msg; SQLError := 0; SQLState := ""; TE_ErrorCode := code |}.

(** The request context: the only thing the controller asks of it is
    whether it is the process-local one (isLocalContext). *)
Record Context : Type := mkContext { isLocalContext : bool }.

Definition localContext : Context := {| isLocalContext := true |}.

(** Bind variables: map[string]interface{}, each value taken as its bytes. *)
Abbreviation BindVars := (gmap string string).

(** querytypes.BoundQuery *)
Record BoundQuery : Type := mkBoundQuery {
  Sql : string;
  BindVariables : BindVars
}.

(** The result of a call into code that may panic. *)
Inductive outcome (A : Type) : Type :=
| Done (a : A)
| Panic (x : string).
Arguments Done {A} a.
Arguments Panic {A} x.

(** A buffered Go channel: its capacity, fixed by [make], and the queued
    elements, oldest first. *)
Record Chan (A : Type) : Type := mkChan {
  chan_cap : nat;
  chan_buf : list A
}.
Arguments mkChan {A} _ _.
Arguments chan_cap {A} _.
Arguments chan_buf {A} _.

Definition make_chan {A : Type} (capacity : nat) : Chan A :=
  {| chan_cap := capacity; chan_buf := [] |}.

Definition chan_full {A : Type} (c : Chan A) : bool :=
  negb (length (chan_buf c) <? chan_cap c)%nat.

(** [select { case c <- v: default: }]: the send case runs when the buffer
    has room, the default case otherwise; neither waits. *)
Definition select_send_default {A : Type} (c : Chan A) (v : A) : Chan A :=
  if chan_full c then c
  else {| chan_cap := chan_cap c; chan_buf := chan_buf c ++ [v] |}.

(** Decimal rendering of an integer (the %d verb). *)
Definition show_int (n : Z) : string := NilZero.string_of_int (Z.to_int n).

Definition newline : string := String (Ascii.ascii_of_nat 10) EmptyString.

(** The %v verb on a list of already rendered elements. *)
Definition show_list (l : list string) : string :=
  "[" +:+ String.concat " " l +:+ "]".

(** ** Collaborators

    The query engine, the transaction engine and pool, the messager, the
    replication watcher, the transaction throttler, the update-stream list
    and the split-query package are outside this file.  Their state is an
    abstract [Backend]; each method used by the controller is a function on
    it.  Calls made on behalf of a request may panic (execRequest recovers);
    the lifecycle calls return normally. *)

(** Methods without a result. *)
Inductive Service : Type :=
| updateStreamList_Init
| updateStreamList_Stop
| watcher_Open
| watcher_Close
| te_Open
| te_Close (immediate : bool)
| messager_Open
| messager_Close
| streamQList_TerminateAll
| txThrottler_Close
| qe_Close.

(** Methods of the start-up path, which return an error or nil. *)
Inductive Opener : Type :=
| dbconnpool_NewDBConnection
| qe_Open
| te_Init
| txThrottler_Open (keyspace shard : string).

Class Collaborators : Type := {
  Backend : Type;
  Result : Type;
  ExecuteOptions : Type;
  RealtimeStats : Type;
  SplitParams : Type;
  SplitAlgorithm : Type;
  QuerySplit : Type;
  (* formatting helpers *)
  TabletType_String : TabletType -> string;
  Algorithm_String : SplitQueryRequest_Algorithm -> string;
  QueryAsString : string -> BindVars -> string;
  TabletError_Error : TabletError -> string;
  tb_Stack : string;
  (* tabletenv.Config.TerseErrors *)
  TerseErrors : bool;
  (* lifecycle *)
  run_service : Service -> Backend -> Backend;
  run_opener : Opener -> Backend -> option error * Backend;
  (* transactions *)
  txThrottler_Throttle : Backend -> outcome bool * Backend;
  txPool_Begin : Backend -> outcome (Z * option error) * Backend;
  txPool_Commit : Z -> Backend -> outcome (option error) * Backend;
  txPool_Rollback : Z -> Backend -> outcome (option error) * Backend;
  (* the body of Execute's closure: stripTrailing, GetPlan, qre.Execute,
     ComputeExtras and StripMetadata; a nil error comes with a result *)
  qre_Execute : string -> BindVars -> Z -> option ExecuteOptions ->
                Backend -> outcome (Result + error) * Backend;
  (* split queries *)
  NewSplitParamsGivenNumRowsPerQueryPart :
    BoundQuery -> list string -> Z -> Backend -> outcome (SplitParams + error) * Backend;
  NewSplitParamsGivenSplitCount :
    BoundQuery -> list string -> Z -> Backend -> outcome (SplitParams + error) * Backend;
  splitExecuter_getConn : Backend -> outcome (option error) * Backend;
  splitExecuter_done : Backend -> Backend;
  NewFullScanAlgorithm : SplitParams -> Backend -> outcome (SplitAlgorithm + error) * Backend;
  NewEqualSplitsAlgorithm : SplitParams -> Backend -> outcome (SplitAlgorithm + error) * Backend;
  Splitter_Split : SplitParams -> SplitAlgorithm -> Backend ->
                   outcome (list QuerySplit + error) * Backend
}.

Section Controller.

Context `{Collab : Collaborators}.

(** querypb.StreamHealthResponse *)
Record StreamHealthResponse : Type := mkStreamHealthResponse {
  SHR_Target : Target;
  Serving : bool;
  TabletExternallyReparentedTimestamp : Z;
  SHR_RealtimeStats : option RealtimeStats
}.

(** The fields of TabletServer the modelled methods read or write.
    [requests] and [txRequests] are the counters of the two wait groups;
    [backend] stands for qe, te, messager, watcher, updateStreamList and
    txThrottler. *)
Record TabletServer : Type := mkTabletServer {
  state : State;
  lameduck : Z;
  target : Target;
  alsoAllow : list TabletType;
  requests : Z;
  txRequests : Z;
  backend : Backend;
  streamHealthIndex : Z;
  streamHealthMap : gmap Z (Chan StreamHealthResponse);
  lastStreamHealthResponse : option StreamHealthResponse
}.

Definition set_state (v : State) (s : TabletServer) : TabletServer :=
  mkTabletServer v (lameduck s) (target s) (alsoAllow s) (requests s)
    (txRequests s) (backend s) (streamHealthIndex s) (streamHealthMap s)
    (lastStreamHealthResponse s).

Definition set_lameduck (v : Z) (s : TabletServer) : TabletServer :=
  mkTabletServer (state s) v (target s) (alsoAllow s) (requests s)
    (txRequests s) (backend s) (streamHealthIndex s) (streamHealthMap s)
    (lastStreamHealthResponse s).

Definition set_target (v : Target) (s : TabletServer) : TabletServer :=
  mkTabletServer (state s) (lameduck s) v (alsoAllow s) (requests s)
    (txRequests s) (backend s) (streamHealthIndex s) (streamHealthMap s)
    (lastStreamHealthResponse s).

Definition set_alsoAllow (v : list TabletType) (s : TabletServer) : TabletServer :=
  mkTabletServer (state s) (lameduck s) (target s) v (requests s)
    (txRequests s) (backend s) (streamHealthIndex s) (streamHealthMap s)
    (lastStreamHealthResponse s).

Definition set_requests (v : Z) (s : TabletServer) : TabletServer :=
  mkTabletServer (state s) (lameduck s) (target s) (alsoAllow s) v
    (txRequests s) (backend s) (streamHealthIndex s) (streamHealthMap s)
    (lastStreamHealthResponse s).

Definition set_txRequests (v : Z) (s : TabletServer) : TabletServer :=
  mkTabletServer (state s) (lameduck s) (target s) (alsoAllow s) (requests s)
    v (backend s) (streamHealthIndex s) (streamHealthMap s)
    (lastStreamHealthResponse s).

Definition set_backend (v : Backend) (s : TabletServer) : TabletServer :=
  mkTabletServer (state s) (lameduck s) (target s) (alsoAllow s) (requests s)
    (txRequests s) v (streamHealthIndex s) (streamHealthMap s)
    (lastStreamHealthResponse s).

Definition set_streamHealth (idx : Z) (m : gmap Z (Chan StreamHealthResponse))
    (s : TabletServer) : TabletServer :=
  mkTabletServer (state s) (lameduck s) (target s) (alsoAllow s) (requests s)
    (txRequests s) (backend s) idx m (lastStreamHealthResponse s).

Definition set_lastStreamHealthResponse (v : option StreamHealthResponse)
    (s : TabletServer) : TabletServer :=
  mkTabletServer (state s) (lameduck s) (target s) (alsoAllow s) (requests s)
    (txRequests s) (backend s) (streamHealthIndex s) (streamHealthMap s) v.

(** ** State and health view *)

(** GetState *)
Definition GetState (s : TabletServer) : string :=
  if bool_decide (lameduck s <> 0) then "NOT_SERVING"
  else stateName (state s).

(** setState, without the log line and the history record. *)
Definition setState (st : State) (s : TabletServer) : TabletServer :=
  set_state st s.

(** transition *)
Definition transition (newState : State) (s : TabletServer) : TabletServer :=
  setState newState s.

(** IsServing *)
Definition IsServing (s : TabletServer) : bool :=
  String.eqb (GetState s) "SERVING".

(** EnterLameduck / ExitLameduck *)
Definition EnterLameduck (s : TabletServer) : TabletServer := set_lameduck 1 s.
Definition ExitLameduck (s : TabletServer) : TabletServer := set_lameduck 0 s.

(** ** Admission *)

(** The [ok:] label of startRequest: requests.Add(1), and txRequests.Add(1)
    for a transactional request. *)
Definition register_request (isTx : bool) (s : TabletServer) : TabletServer :=
  let s1 := set_requests (requests s + 1) s in
  if isTx then set_txRequests (txRequests s1 + 1) s1 else s1.

(** The [verifyTarget:] label of startRequest. *)
Definition verifyTarget (ctx : Context) (tgt : option Target) (isTx : bool)
    (s : TabletServer) : option error * TabletServer :=
  match tgt with
  | Some t =>
      if bool_decide (Keyspace t <> Keyspace (target s)) then
        (Some (TabletErr (NewTabletError ErrorCode_QUERY_NOT_SERVED
                 ("Invalid keyspace " +:+ Keyspace t))), s)
      else if bool_decide (Shard t <> Shard (target s)) then
        (Some (TabletErr (NewTabletError ErrorCode_QUERY_NOT_SERVED
                 ("Invalid shard " +:+ Shard t))), s)
      else if isTx && bool_decide (Target_TabletType (target s) <> TabletType_MASTER) then
        (Some (TabletErr (NewTabletError ErrorCode_QUERY_NOT_SERVED
                 ("transactional statement disallowed on non-master tablet: "
                  +:+ TabletType_String (Target_TabletType (target s))))), s)
      else if bool_decide (Target_TabletType t <> Target_TabletType (target s)) then
        if existsb (fun otherType => bool_decide (Target_TabletType t = otherType))
                   (alsoAllow s)
        then (None, register_request isTx s)
        else
          (Some (TabletErr (NewTabletError ErrorCode_QUERY_NOT_SERVED
                   ("Invalid tablet type: " +:+ TabletType_String (Target_TabletType t)
                    +:+ ", want: " +:+ TabletType_String (Target_TabletType (target s))
                    +:+ " or " +:+ show_list (map TabletType_String (alsoAllow s))))), s)
      else (None, register_request isTx s)
  | None =>
      if negb (isLocalContext ctx) then
        (Some (TabletErr (NewTabletError ErrorCode_QUERY_NOT_SERVED "No target")), s)
      else (None, register_request isTx s)
  end.

(** startRequest *)
Definition startRequest (ctx : Context) (tgt : option Target)
    (isTx allowOnShutdown : bool) (s : TabletServer) : option error * TabletServer :=
  if bool_decide (state s = StateServing) then verifyTarget ctx tgt isTx s
  else if allowOnShutdown && bool_decide (state s = StateShuttingDown) then
    verifyTarget ctx tgt isTx s
  else
    (Some (TabletErr (NewTabletError ErrorCode_QUERY_NOT_SERVED
             ("operation not allowed in state " +:+ stateName (state s)))), s).

(** endRequest: requests.Done(), and txRequests.Done() for a transactional
    request. *)
Definition endRequest (isTx : bool) (s : TabletServer) : TabletServer :=
  let s1 := set_requests (requests s - 1) s in
  if isTx then set_txRequests (txRequests s1 - 1) s1 else s1.

(** ** The request wrapper *)

Definition failover_message : string :=
  "failover in progress (errno 1227) (sqlstate 42000)".

(** The %v verb on an error: its Error() text. *)
Definition error_text (err : error) : string :=
  match err with
  | TabletErr terr => TabletError_Error terr
  | OtherErr text => text
  end.

(** handleError.  The value returned is [myError] on every path; what
    follows its computation in the source only picks the log level. *)
Definition handleError (sql : string) (bindVariables : BindVars) (err : error) : error :=
  let terr :=
    match err with
    | TabletErr t => t
    | OtherErr text => NewTabletError ErrorCode_UNKNOWN_ERROR text
    end in
  if TerseErrors && bool_decide (SQLError terr <> 0)
     && bool_decide (size bindVariables <> 0%nat) then
    if bool_decide (SQLError terr = 1227)
       && bool_decide (Message terr = failover_message) then
      TabletErr terr
    else
      TabletErr
        {| SQLError := SQLError terr;
           SQLState := SQLState terr;
           TE_ErrorCode := TE_ErrorCode terr;
           Message := "(errno " +:+ show_int (SQLError terr) +:+ ") (sqlstate "
                      +:+ SQLState terr +:+ ") during query: " +:+ sql |}
  else TabletErr terr.

(** handlePanicAndSendLogStats, on a recovered panic value [x]. *)
Definition recovered_error (sql : string) (bindVariables : BindVars) (x : string) : error :=
  TabletErr (NewTabletError ErrorCode_UNKNOWN_ERROR
    ("Uncaught panic for " +:+ QueryAsString sql bindVariables +:+ ":" +:+ newline
     +:+ x +:+ newline +:+ tb_Stack)).

(** execRequest.  [exec] is the closure; it yields the value it left in the
    variable it captured from the caller together with the error it
    returned, or panics.  [zero] is what that variable holds when the closure
    never assigned it.  The request name and the timeout feed the log
    statistics and the deadline of the derived context only. *)
Definition execRequest {A : Type} (ctx : Context) (sql : string)
    (bindVariables : BindVars) (tgt : option Target) (isTx allowOnShutdown : bool)
    (zero : A) (exec : Backend -> outcome (A * option error) * Backend)
    (s : TabletServer) : (A * option error) * TabletServer :=
  match startRequest ctx tgt isTx allowOnShutdown s with
  | (Some err, s1) => ((zero, Some err), s1)
  | (None, s1) =>
      let '(r, b) := exec (backend s1) in
      let s2 := endRequest isTx (set_backend b s1) in
      match r with
      | Done (a, None) => ((a, None), s2)
      | Done (a, Some err) => ((a, Some (handleError sql bindVariables err)), s2)
      | Panic x => ((zero, Some (recovered_error sql bindVariables x)), s2)
      end
  end.

(** ** Transactions *)

Definition Begin_closure (b : Backend) : outcome (Z * option error) * Backend :=
  match txThrottler_Throttle b with
  | (Panic x, b1) => (Panic x, b1)
  | (Done true, b1) =>
      (Done (0, Some (TabletErr (NewTabletError ErrorCode_TRANSIENT_ERROR
                        "Transaction throttled"))), b1)
  | (Done false, b1) => txPool_Begin b1
  end.

(** Begin *)
Definition Begin (ctx : Context) (tgt : option Target) (s : TabletServer)
    : (Z * option error) * TabletServer :=
  execRequest ctx "begin" ∅ tgt true false 0 Begin_closure s.

(** A closure that captures nothing and returns the error of one call. *)
Definition only_error (m : Backend -> outcome (option error) * Backend)
    (b : Backend) : outcome (unit * option error) * Backend :=
  match m b with
  | (Done err, b1) => (Done (tt, err), b1)
  | (Panic x, b1) => (Panic x, b1)
  end.

(** Commit *)
Definition Commit (ctx : Context) (tgt : option Target) (transactionID : Z)
    (s : TabletServer) : option error * TabletServer :=
  let '((_, err), s1) :=
    execRequest ctx "commit" ∅ tgt true true tt
      (only_error (txPool_Commit transactionID)) s in
  (err, s1).

(** Rollback *)
Definition Rollback (ctx : Context) (tgt : option Target) (transactionID : Z)
    (s : TabletServer) : option error * TabletServer :=
  let '((_, err), s1) :=
    execRequest ctx "rollback" ∅ tgt true true tt
      (only_error (txPool_Rollback transactionID)) s in
  (err, s1).

(** ** Queries *)

Definition Execute_closure (sql : string) (bindVariables : BindVars)
    (transactionID : Z) (options : option ExecuteOptions) (b : Backend)
    : outcome (option Result * option error) * Backend :=
  match qre_Execute sql bindVariables transactionID options b with
  | (Done (inl result), b1) => (Done (Some result, None), b1)
  | (Done (inr err), b1) => (Done (None, Some err), b1)
  | (Panic x, b1) => (Panic x, b1)
  end.

(** Execute *)
Definition Execute (ctx : Context) (tgt : option Target) (sql : string)
    (bindVariables : BindVars) (transactionID : Z)
    (options : option ExecuteOptions) (s : TabletServer)
    : (option Result * option error) * TabletServer :=
  let allowOnShutdown := bool_decide (transactionID <> 0) in
  execRequest ctx sql bindVariables tgt false allowOnShutdown None
    (Execute_closure sql bindVariables transactionID options) s.

Definition nil_dereference : string :=
  "runtime error: invalid memory address or nil pointer dereference".

(** The [for] loop of ExecuteBatch.  It yields the value of [results] and
    the way the loop was left: [Done None] when it ran to its end,
    [Done (Some err)] at [return nil, tsv.handleError(...)], [Panic] when
    [*localReply] dereferences nil. *)
Fixpoint ExecuteBatch_loop (ctx : Context) (tgt : option Target)
    (queries : list BoundQuery) (transactionID : Z)
    (options : option ExecuteOptions) (results : list Result)
    (s : TabletServer) : (list Result * outcome (option error)) * TabletServer :=
  match queries with
  | [] => ((results, Done None), s)
  | bound :: rest =>
      match Execute ctx tgt (Sql bound) (BindVariables bound) transactionID options s with
      | ((_, Some err), s1) => (([], Done (Some (handleError "batch" ∅ err))), s1)
      | ((Some localReply, None), s1) =>
          ExecuteBatch_loop ctx tgt rest transactionID options
            (results ++ [localReply]) s1
      | ((None, None), s1) => ((results, Panic nil_dereference), s1)
      end
  end.

(** ExecuteBatch from [results = make(...)] to its last [return]: the
    results, how the function was left, and the final value of the local
    [transactionID] that the deferred roll-back reads. *)
Definition ExecuteBatch_run (ctx : Context) (tgt : option Target)
    (queries : list BoundQuery) (asTransaction : bool) (transactionID : Z)
    (options : option ExecuteOptions) (s : TabletServer)
    : ((list Result * outcome (option error)) * Z) * TabletServer :=
  match ExecuteBatch_loop ctx tgt queries transactionID options [] s with
  | ((results, Done None), s1) =>
      if asTransaction then
        match Commit ctx tgt transactionID s1 with
        | (Some err, s2) => ((([], Done (Some (handleError "batch" ∅ err))), 0), s2)
        | (None, s2) => (((results, Done None), 0), s2)
        end
      else (((results, Done None), transactionID), s1)
  | (left_early, s1) => ((left_early, transactionID), s1)
  end.

(** ExecuteBatch after the request was registered, up to the deferred
    roll-back. *)
Definition ExecuteBatch_body (ctx : Context) (tgt : option Target)
    (queries : list BoundQuery) (asTransaction : bool) (transactionID : Z)
    (options : option ExecuteOptions) (s : TabletServer)
    : (list Result * outcome (option error)) * TabletServer :=
  if asTransaction then
    match Begin ctx tgt s with
    | ((_, Some err), s1) => (([], Done (Some (handleError "batch" ∅ err))), s1)
    | ((txid, None), s1) =>
        let '((r, txid'), s2) :=
          ExecuteBatch_run ctx tgt queries true txid options s1 in
        if bool_decide (txid' <> 0) then (r, snd (Rollback ctx tgt txid' s2))
        else (r, s2)
    end
  else
    let '((r, _), s1) :=
      ExecuteBatch_run ctx tgt queries false transactionID options s in
    (r, s1).

(** ExecuteBatch *)
Definition ExecuteBatch (ctx : Context) (tgt : option Target)
    (queries : list BoundQuery) (asTransaction : bool) (transactionID : Z)
    (options : option ExecuteOptions) (s : TabletServer)
    : (list Result * option error) * TabletServer :=
  if bool_decide (length queries = 0%nat) then
    (([], Some (TabletErr (NewTabletError ErrorCode_BAD_INPUT "Empty query list"))), s)
  else if asTransaction && bool_decide (transactionID <> 0) then
    (([], Some (TabletErr (NewTabletError ErrorCode_BAD_INPUT
        "cannot start a new transaction in the scope of an existing one"))), s)
  else
    let allowOnShutdown := bool_decide (transactionID <> 0) in
    match startRequest ctx tgt false allowOnShutdown s with
    | (Some err, s1) => (([], Some err), s1)
    | (None, s1) =>
        let '((results, r), s2) :=
          ExecuteBatch_body ctx tgt queries asTransaction transactionID options s1 in
        let err :=
          match r with
          | Done err => err
          | Panic x => Some (recovered_error "batch" ∅ x)
          end in
        ((results, err), endRequest false s2)
    end.

(** ** SplitQuery *)

(** validateSplitQueryParameters.  [target.TabletType] dereferences the
    request's target, so a nil target panics. *)
Definition validateSplitQueryParameters (tgt : option Target) (query : BoundQuery)
    (splitColumns : list string) (splitCount numRowsPerQueryPart : Z)
    (algorithm : SplitQueryRequest_Algorithm) : outcome (option error) :=
  match tgt with
  | None => Panic nil_dereference
  | Some t =>
      if bool_decide (Target_TabletType t <> TabletType_RDONLY) then
        Done (Some (TabletErr (NewTabletError ErrorCode_BAD_INPUT
          ("SplitQuery must be called with a RDONLY tablet. TableType passed is: "
           +:+ TabletType_String (Target_TabletType t)))))
      else if bool_decide (numRowsPerQueryPart < 0) then
        Done (Some (TabletErr (NewTabletError ErrorCode_BAD_INPUT
          ("splitQuery: numRowsPerQueryPart must be non-negative. Got: "
           +:+ show_int numRowsPerQueryPart +:+ ". SQL: "
           +:+ QueryAsString (Sql query) (BindVariables query)))))
      else if bool_decide (splitCount < 0) then
        Done (Some (TabletErr (NewTabletError ErrorCode_BAD_INPUT
          ("splitQuery: splitCount must be non-negative. Got: "
           +:+ show_int splitCount +:+ ". SQL: "
           +:+ QueryAsString (Sql query) (BindVariables query)))))
      else if (bool_decide (splitCount = 0) && bool_decide (numRowsPerQueryPart = 0))
              || (bool_decide (splitCount <> 0) && bool_decide (numRowsPerQueryPart <> 0)) then
        Done (Some (TabletErr (NewTabletError ErrorCode_BAD_INPUT
          ("splitQuery: exactly one of {numRowsPerQueryPart, splitCount} must be"
           +:+ " non zero. Got: numRowsPerQueryPart=" +:+ show_int numRowsPerQueryPart
           +:+ ", splitCount=" +:+ show_int splitCount +:+ ". SQL: "
           +:+ QueryAsString (Sql query) (BindVariables query)))))
      else if bool_decide (algorithm <> SplitQueryRequest_EQUAL_SPLITS)
              && bool_decide (algorithm <> SplitQueryRequest_FULL_SCAN) then
        Done (Some (TabletErr (NewTabletError ErrorCode_BAD_INPUT
          ("splitquery: unsupported algorithm: " +:+ Algorithm_String algorithm
           +:+ ". SQL: " +:+ QueryAsString (Sql query) (BindVariables query)))))
      else Done None
  end.

(** splitQueryToTabletError, on a non-nil error. *)
Definition splitQueryToTabletError (err : error) : error :=
  TabletErr (NewTabletError ErrorCode_BAD_INPUT ("splitquery: " +:+ error_text err)).

Definition convert_split_error {A : Type}
    (r : outcome (A + error) * Backend) : outcome (A + error) * Backend :=
  match r with
  | (Done (inr err), b) => (Done (inr (splitQueryToTabletError err)), b)
  | other => other
  end.

(** createSplitParams *)
Definition createSplitParams (query : BoundQuery) (splitColumns : list string)
    (splitCount numRowsPerQueryPart : Z) (b : Backend)
    : outcome (SplitParams + error) * Backend :=
  if bool_decide (numRowsPerQueryPart <> 0) && bool_decide (splitCount = 0) then
    convert_split_error
      (NewSplitParamsGivenNumRowsPerQueryPart query splitColumns numRowsPerQueryPart b)
  else if bool_decide (numRowsPerQueryPart = 0) && bool_decide (splitCount <> 0) then
    convert_split_error
      (NewSplitParamsGivenSplitCount query splitColumns splitCount b)
  else
    (Panic ("Exactly one of {numRowsPerQueryPart, splitCount} must be"
            +:+ " non zero. This should have already been caught by 'validateSplitQueryParameters' and "
            +:+ " returned as an error. Got: numRowsPerQueryPart=" +:+ show_int numRowsPerQueryPart
            +:+ ", splitCount=" +:+ show_int splitCount +:+ ". SQL: "
            +:+ QueryAsString (Sql query) (BindVariables query)), b).

(** createSplitQueryAlgorithmObject *)
Definition createSplitQueryAlgorithmObject (algorithm : SplitQueryRequest_Algorithm)
    (splitParams : SplitParams) (b : Backend)
    : outcome (SplitAlgorithm + error) * Backend :=
  if bool_decide (algorithm = SplitQueryRequest_FULL_SCAN) then
    NewFullScanAlgorithm splitParams b
  else if bool_decide (algorithm = SplitQueryRequest_EQUAL_SPLITS) then
    NewEqualSplitsAlgorithm splitParams b
  else (Panic ("Unknown algorithm enum: " +:+ Algorithm_String algorithm), b).

(** The closure of SplitQuery from newSplitQuerySQLExecuter on; the caller
    runs the deferred [sqlExecuter.done()] once a connection was taken. *)
Definition SplitQuery_split (algorithm : SplitQueryRequest_Algorithm)
    (splitParams : SplitParams) (b : Backend)
    : outcome (list QuerySplit * option error) * Backend :=
  match convert_split_error (createSplitQueryAlgorithmObject algorithm splitParams b) with
  | (Panic x, b1) => (Panic x, b1)
  | (Done (inr err), b1) => (Done ([], Some err), b1)
  | (Done (inl algorithmObject), b1) =>
      match convert_split_error (Splitter_Split splitParams algorithmObject b1) with
      | (Panic x, b2) => (Panic x, b2)
      | (Done (inr err), b2) => (Done ([], Some err), b2)
      | (Done (inl splits), b2) => (Done (splits, None), b2)
      end
  end.

(** The split computation: everything the closure does once the parameters
    were validated. *)
Definition SplitQuery_compute (query : BoundQuery) (splitColumns : list string)
    (splitCount numRowsPerQueryPart : Z) (algorithm : SplitQueryRequest_Algorithm)
    (b : Backend) : outcome (list QuerySplit * option error) * Backend :=
  match createSplitParams query splitColumns splitCount numRowsPerQueryPart b with
  | (Panic x, b1) => (Panic x, b1)
  | (Done (inr err), b1) => (Done ([], Some err), b1)
  | (Done (inl splitParams), b1) =>
      match splitExecuter_getConn b1 with
      | (Panic x, b2) => (Panic x, b2)
      | (Done (Some err), b2) => (Done ([], Some err), b2)
      | (Done None, b2) =>
          let '(r, b3) := SplitQuery_split algorithm splitParams b2 in
          (r, splitExecuter_done b3)
      end
  end.

Definition SplitQuery_closure (tgt : option Target) (query : BoundQuery)
    (splitColumns : list string) (splitCount numRowsPerQueryPart : Z)
    (algorithm : SplitQueryRequest_Algorithm) (b : Backend)
    : outcome (list QuerySplit * option error) * Backend :=
  match validateSplitQueryParameters tgt query splitColumns splitCount
          numRowsPerQueryPart algorithm with
  | Panic x => (Panic x, b)
  | Done (Some err) => (Done ([], Some err), b)
  | Done None =>
      SplitQuery_compute query splitColumns splitCount numRowsPerQueryPart algorithm b
  end.

(** SplitQuery *)
Definition SplitQuery (ctx : Context) (tgt : option Target) (query : BoundQuery)
    (splitColumns : list string) (splitCount numRowsPerQueryPart : Z)
    (algorithm : SplitQueryRequest_Algorithm) (s : TabletServer)
    : (list QuerySplit * option error) * TabletServer :=
  execRequest ctx (Sql query) (BindVariables query) tgt false false []
    (SplitQuery_closure tgt query splitColumns splitCount numRowsPerQueryPart algorithm) s.

(** ** Lifecycle *)

Inductive Action : Type :=
| actionNone
| actionFullStart
| actionServeNewType
| actionGracefulStop.

Definition set_TabletType (tabletType : TabletType) (s : TabletServer) : TabletServer :=
  set_target {| Keyspace := Keyspace (target s); Shard := Shard (target s);
                Target_TabletType := tabletType |} s.

(** decideAction *)
Definition decideAction (tabletType : TabletType) (serving : bool)
    (allow : list TabletType) (s : TabletServer)
    : (Action * option error) * TabletServer :=
  let s := set_alsoAllow allow s in
  if bool_decide (Target_TabletType (target s) = tabletType)
     && (serving && bool_decide (state s = StateServing)) then
    ((actionNone, None), s)
  else
    let s := set_TabletType tabletType s in
    match state s with
    | StateNotConnected =>
        if serving then ((actionFullStart, None), setState StateTransitioning s)
        else ((actionNone, None), s)
    | StateNotServing =>
        if serving then ((actionServeNewType, None), setState StateTransitioning s)
        else ((actionNone, None), s)
    | StateServing =>
        if negb serving then ((actionGracefulStop, None), setState StateShuttingDown s)
        else ((actionServeNewType, None), setState StateTransitioning s)
    | StateTransitioning | StateShuttingDown =>
        ((actionNone,
          Some (TabletErr (NewTabletError ErrorCode_INTERNAL_ERROR
                  ("cannot SetServingType, current state: " +:+ stateName (state s))))), s)
    end.

Definition service (sv : Service) (s : TabletServer) : TabletServer :=
  set_backend (run_service sv (backend s)) s.

Definition opener (op : Opener) (s : TabletServer) : option error * TabletServer :=
  let '(err, b) := run_opener op (backend s) in (err, set_backend b s).

(** WaitGroup.Wait returns once the counter is zero.  The requests in
    flight belong to other goroutines, which call endRequest while the caller
    is parked; the state after the call has the drained counter. *)
Definition txRequests_Wait (s : TabletServer) : TabletServer := set_txRequests 0 s.
Definition requests_Wait (s : TabletServer) : TabletServer := set_requests 0 s.

(** serveNewType *)
Definition serveNewType (s : TabletServer) : option error * TabletServer :=
  if bool_decide (Target_TabletType (target s) = TabletType_MASTER) then
    match opener (txThrottler_Open (Keyspace (target s)) (Shard (target s))) s with
    | (Some err, s1) => (Some err, s1)
    | (None, s1) =>
        (None, transition StateServing
                 (service messager_Open (service te_Open (service watcher_Close s1))))
    end
  else
    (None, transition StateServing
             (service txThrottler_Close
               (service watcher_Open
                 (service (te_Close true)
                   (txRequests_Wait (service messager_Close s)))))).

(** fullStart; the probe connection is closed at once. *)
Definition fullStart (s : TabletServer) : option error * TabletServer :=
  match opener dbconnpool_NewDBConnection s with
  | (Some err, s1) => (Some err, s1)
  | (None, s1) =>
      match opener qe_Open s1 with
      | (Some err, s2) => (Some err, s2)
      | (None, s2) =>
          match opener te_Init s2 with
          | (Some err, s3) => (Some err, s3)
          | (None, s3) => serveNewType (service updateStreamList_Init s3)
          end
      end
  end.

(** waitForShutdown *)
Definition waitForShutdown (s : TabletServer) : TabletServer :=
  service txThrottler_Close
    (requests_Wait
      (service watcher_Close
        (service updateStreamList_Stop
          (service streamQList_TerminateAll
            (service (te_Close false)
              (txRequests_Wait (service messager_Close s))))))).

(** gracefulStop *)
Definition gracefulStop (s : TabletServer) : TabletServer :=
  transition StateNotServing (waitForShutdown s).

(** closeAll *)
Definition closeAll (s : TabletServer) : TabletServer :=
  transition StateNotConnected
    (service txThrottler_Close
      (service qe_Close
        (service updateStreamList_Stop
          (service watcher_Close
            (service (te_Close true) (service messager_Close s)))))).

(** StopService *)
Definition StopService (s : TabletServer) : TabletServer :=
  if bool_decide (state s <> StateServing) && bool_decide (state s <> StateNotServing)
  then s
  else
    transition StateNotConnected
      (service qe_Close (waitForShutdown (setState StateShuttingDown s))).

(** SetServingType up to its deferred call. *)
Definition SetServingType_body (tabletType : TabletType) (serving : bool)
    (allow : list TabletType) (s : TabletServer)
    : (bool * option error) * TabletServer :=
  match decideAction tabletType serving allow s with
  | ((_, Some err), s1) => ((false, Some err), s1)
  | ((actionNone, None), s1) => ((false, None), s1)
  | ((actionFullStart, None), s1) =>
      match fullStart s1 with
      | (Some err, s2) => ((true, Some err), closeAll s2)
      | (None, s2) => ((true, None), s2)
      end
  | ((actionServeNewType, None), s1) =>
      match serveNewType s1 with
      | (Some err, s2) => ((true, Some err), closeAll s2)
      | (None, s2) => ((true, None), s2)
      end
  | ((actionGracefulStop, None), s1) => ((true, None), gracefulStop s1)
  end.

(** SetServingType: [defer tsv.ExitLameduck()] runs after the body. *)
Definition SetServingType (tabletType : TabletType) (serving : bool)
    (allow : list TabletType) (s : TabletServer)
    : (bool * option error) * TabletServer :=
  let '(r, s1) := SetServingType_body tabletType serving allow s in
  (r, ExitLameduck s1).

(** ** Stream health *)

(** A Go [int] incremented past its largest value wraps around. *)
Definition wrap_int (z : Z) : Z := (z + 2 ^ 63) mod 2 ^ 64 - 2 ^ 63.

(** streamHealthRegister *)
Definition streamHealthRegister (s : TabletServer)
    : (Z * Chan StreamHealthResponse) * TabletServer :=
  let id := streamHealthIndex s in
  let ch := make_chan 10 in
  ((id, ch), set_streamHealth (wrap_int (id + 1)) (<[id := ch]> (streamHealthMap s)) s).

(** streamHealthUnregister *)
Definition streamHealthUnregister (id : Z) (s : TabletServer) : TabletServer :=
  set_streamHealth (streamHealthIndex s) (delete id (streamHealthMap s)) s.

(** The snapshot BroadcastHealth builds. *)
Definition health_snapshot (terTimestamp : Z) (stats : option RealtimeStats)
    (s : TabletServer) : StreamHealthResponse :=
  {| SHR_Target := target s;
     Serving := IsServing s;
     TabletExternallyReparentedTimestamp := terTimestamp;
     SHR_RealtimeStats := stats |}.

(** The [for ... range tsv.streamHealthMap] loop: one non-blocking send per
    entry, in whatever order the map yields them. *)
Definition broadcast_loop (shr : StreamHealthResponse)
    (m : gmap Z (Chan StreamHealthResponse)) : gmap Z (Chan StreamHealthResponse) :=
  map_fold (fun id c acc => <[id := select_send_default c shr]> acc) m m.

(** BroadcastHealth *)
Definition BroadcastHealth (terTimestamp : Z) (stats : option RealtimeStats)
    (s : TabletServer) : TabletServer :=
  let shr := health_snapshot terTimestamp stats s in
  set_lastStreamHealthResponse (Some shr)
    (set_streamHealth (streamHealthIndex s) (broadcast_loop shr (streamHealthMap s)) s).

(** ** The admission rule in words

    [admission_as_stated] is the rule with its clauses on the target applying
    to a non-nil target only; [admissible] adds the clause of the source for a
    nil target. *)

Definition state_admits (allowOnShutdown : bool) (s : TabletServer) : Prop :=
  state s = StateServing \/ (allowOnShutdown = true /\ state s = StateShuttingDown).

Definition target_admits (isTx : bool) (t : Target) (s : TabletServer) : Prop :=
  Keyspace t = Keyspace (target s) /\
  Shard t = Shard (target s) /\
  (isTx = true -> Target_TabletType (target s) = TabletType_MASTER) /\
  (Target_TabletType t = Target_TabletType (target s) \/
   Target_TabletType t ∈ alsoAllow s).

Definition admission_as_stated (tgt : option Target) (isTx allowOnShutdown : bool)
    (s : TabletServer) : Prop :=
  state_admits allowOnShutdown s /\
  (forall t, tgt = Some t -> target_admits isTx t s).

Definition admissible (ctx : Context) (tgt : option Target)
    (isTx allowOnShutdown : bool) (s : TabletServer) : Prop :=
  admission_as_stated tgt isTx allowOnShutdown s /\
  (tgt = None -> isLocalContext ctx = true).

(** What execRequest returns for the outcome of a closure that captures
    nothing. *)
Definition returned_error (sql : string) (bindVariables : BindVars)
    (r : outcome (option error)) : option error :=
  match r with
  | Done None => None
  | Done (Some err) => Some (handleError sql bindVariables err)
  | Panic x => Some (recovered_error sql bindVariables x)
  end.

(** A run of Execute over [queries] in which every call succeeds: the
    results in order and the state reached, or [None] when a call fails. *)
Fixpoint Execute_all (ctx : Context) (tgt : option Target)
    (queries : list BoundQuery) (transactionID : Z)
    (options : option ExecuteOptions) (s : TabletServer)
    : option (list Result * TabletServer) :=
  match queries with
  | [] => Some ([], s)
  | bound :: rest =>
      match Execute ctx tgt (Sql bound) (BindVariables bound) transactionID options s with
      | ((Some result, None), s1) =>
          match Execute_all ctx tgt rest transactionID options s1 with
          | Some (results, s2) => Some (result :: results, s2)
          | None => None
          end
      | _ => None
      end
  end.

(** The parameters validateSplitQueryParameters lets through. *)
Definition split_parameters_valid (t : Target) (splitCount numRowsPerQueryPart : Z)
    (algorithm : SplitQueryRequest_Algorithm) : Prop :=
  Target_TabletType t = TabletType_RDONLY /\
  0 <= numRowsPerQueryPart /\ 0 <= splitCount /\
  ((splitCount = 0 /\ numRowsPerQueryPart <> 0) \/
   (splitCount <> 0 /\ numRowsPerQueryPart = 0)) /\
  (algorithm = SplitQueryRequest_EQUAL_SPLITS \/ algorithm = SplitQueryRequest_FULL_SCAN).

(** The parameters the validation is said to refuse. *)
Definition split_parameters_refused (t : Target) (splitCount numRowsPerQueryPart : Z)
    (algorithm : SplitQueryRequest_Algorithm) : Prop :=
  Target_TabletType t <> TabletType_RDONLY \/
  (splitCount = 0 /\ numRowsPerQueryPart = 0) \/
  (splitCount <> 0 /\ numRowsPerQueryPart <> 0) \/
  (algorithm <> SplitQueryRequest_EQUAL_SPLITS /\ algorithm <> SplitQueryRequest_FULL_SCAN).




End Controller.

(** ** Further operations of the controller *)

Section Operations.

Context `{Collab : Collaborators}.

(** isMySQLReachable; [probe] is tsv.qe.IsMySQLReachable().  In SERVING a
    request is reserved around the probe, in NOT_SERVING the state is switched
    to TRANSITIONING around it, and in any other state there is no probe. *)
Definition isMySQLReachable (probe : Backend -> bool * Backend) (s : TabletServer)
    : bool * TabletServer :=
  match state s with
  | StateServing =>
      let s1 := set_requests (requests s + 1) s in
      let '(reachable, b) := probe (backend s1) in
      let s2 := set_backend b s1 in
      (reachable, set_requests (requests s2 - 1) s2)
  | StateNotServing =>
      let s1 := setState StateTransitioning s in
      let '(reachable, b) := probe (backend s1) in
      (reachable, transition StateNotServing (set_backend b s1))
  | _ => (true, s)
  end.

(** The body of the goroutine CheckMySQL starts; the semaphore that limits
    it to one run per second is not represented. *)
Definition CheckMySQL (probe : Backend -> bool * Backend) (s : TabletServer)
    : TabletServer :=
  let '(reachable, s1) := isMySQLReachable probe s in
  if reachable then s1 else StopService s1.

(** IsHealthy *)
Definition IsHealthy (s : TabletServer) : option error * TabletServer :=
  let '((_, err), s1) := Execute localContext None "select 1 from dual" ∅ 0 None s in
  (err, s1).

(** BeginExecute *)
Definition BeginExecute (ctx : Context) (tgt : option Target) (sql : string)
    (bindVariables : BindVars) (options : option ExecuteOptions) (s : TabletServer)
    : ((option Result * Z) * option error) * TabletServer :=
  match Begin ctx tgt s with
  | ((_, Some err), s1) => (((None, 0), Some err), s1)
  | ((transactionID, None), s1) =>
      let '((result, err), s2) :=
        Execute ctx tgt sql bindVariables transactionID options s1 in
      (((result, transactionID), err), s2)
  end.

(** BeginExecuteBatch *)
Definition BeginExecuteBatch (ctx : Context) (tgt : option Target)
    (queries : list BoundQuery) (asTransaction : bool)
    (options : option ExecuteOptions) (s : TabletServer)
    : ((list Result * Z) * option error) * TabletServer :=
  match Begin ctx tgt s with
  | ((_, Some err), s1) => ((([], 0), Some err), s1)
  | ((transactionID, None), s1) =>
      let '((results, err), s2) :=
        ExecuteBatch ctx tgt queries asTransaction transactionID options s1 in
      (((results, transactionID), err), s2)
  end.

(** execDML after the request was registered.  [queryGenerator] is the
    messager's generator the caller passes; [RowsAffected] reads the uint64
    field of a result, which [int64(...)] converts. *)
Definition execDML_body (ctx : Context) (tgt : option Target)
    (RowsAffected : Result -> Z)
    (queryGenerator : Backend -> outcome ((string * BindVars) + error) * Backend)
    (s : TabletServer) : (Z * outcome (option error)) * TabletServer :=
  match queryGenerator (backend s) with
  | (Panic x, b) => ((0, Panic x), set_backend b s)
  | (Done (inr err), b) =>
      ((0, Done (Some (TabletErr (NewTabletError ErrorCode_BAD_INPUT (error_text err))))),
       set_backend b s)
  | (Done (inl (query, bv)), b) =>
      match Begin ctx tgt (set_backend b s) with
      | ((_, Some err), s1) => ((0, Done (Some err)), s1)
      | ((transactionID, None), s1) =>
          match Execute ctx tgt query bv transactionID None s1 with
          | ((_, Some err), s2) =>
              (* the deferred roll-back finds the transaction still open *)
              ((0, Done (Some err)),
               if bool_decide (transactionID <> 0)
               then snd (Rollback ctx tgt transactionID s2) else s2)
          | ((qr, None), s2) =>
              match Commit ctx tgt transactionID s2 with
              | (Some err, s3) => ((0, Done (Some err)), s3)
              | (None, s3) =>
                  match qr with
                  | Some result => ((wrap_int (RowsAffected result), Done None), s3)
                  | None => ((0, Panic nil_dereference), s3)
                  end
              end
          end
      end
  end.

(** execDML, which MessageAck, PostponeMessages and PurgeMessages run. *)
Definition execDML (ctx : Context) (tgt : option Target)
    (RowsAffected : Result -> Z)
    (queryGenerator : Backend -> outcome ((string * BindVars) + error) * Backend)
    (s : TabletServer) : (Z * option error) * TabletServer :=
  match startRequest ctx tgt false false s with
  | (Some err, s1) => ((0, Some err), s1)
  | (None, s1) =>
      let '((count, r), s2) :=
        execDML_body ctx tgt RowsAffected queryGenerator s1 in
      let err :=
        match r with
        | Done err => err
        | Panic x => Some (recovered_error "ack" ∅ x)
        end in
      ((count, err), endRequest false s2)
  end.

(** InitDBConfig.  [store] stands for the assignments to tsv.dbconfigs and
    tsv.mysqld, which the collaborators read when they are opened. *)
Definition InitDBConfig (store : Backend -> Backend) (tgt : Target)
    (s : TabletServer) : option error * TabletServer :=
  if bool_decide (state s <> StateNotConnected) then
    (Some (TabletErr (NewTabletError ErrorCode_UNKNOWN_ERROR
             ("InitDBConfig failed, current state: " +:+ stateName (state s)))), s)
  else (None, set_backend (store (backend s)) (set_target tgt s)).

(** StartService *)
Definition StartService (store : Backend -> Backend) (tgt : Target)
    (s : TabletServer) : option error * TabletServer :=
  let tabletType := Target_TabletType tgt in
  match InitDBConfig store tgt s with
  | (Some err, s1) => (Some err, s1)
  | (None, s1) =>
      let '((_, err), s2) := SetServingType tabletType true [] s1 in
      (err, s2)
  end.

(** A run of broadcasts, one per (timestamp, statistics) pair, in order. *)
Fixpoint BroadcastHealth_all (updates : list (Z * option RealtimeStats))
    (s : TabletServer) : TabletServer :=
  match updates with
  | [] => s
  | (terTimestamp, stats) :: rest =>
      BroadcastHealth_all rest (BroadcastHealth terTimestamp stats s)
  end.

(** Every subscriber channel is as streamHealthRegister makes it, capacity
    10, with no more queued than it can hold. *)
Definition channels_bounded (s : TabletServer) : Prop :=
  forall id c, streamHealthMap s !! id = Some c ->
    chan_cap c = 10%nat /\ (length (chan_buf c) <= chan_cap c)%nat.

(** Every subscriber id was handed out before the next one to hand out. *)
Definition ids_fresh (s : TabletServer) : Prop :=
  forall id c, streamHealthMap s !! id = Some c -> id < streamHealthIndex s.

(** What Execute returns for the outcome of the query executor. *)
Definition Execute_result (sql : string) (bindVariables : BindVars)
    (r : outcome (Result + error)) : option Result * option error :=
  match r with
  | Done (inl result) => (Some result, None)
  | Done (inr err) => (None, Some (handleError sql bindVariables err))
  | Panic x => (None, Some (recovered_error sql bindVariables x))
  end.


End Operations.

(** ** Collaborators that record their calls

    A concrete backend for running the controller: the backend state is the
    list of calls received, oldest first.  Transaction ids count up from 1;
    a query whose text is "fail" returns a duplicate-key error; the throttler
    never throttles; start-up succeeds unless the keyspace is "down". *)
Module Recorder.

Inductive Event : Type :=
| EvService (sv : Service)
| EvOpener (op : Opener)
| EvBegin (id : Z)
| EvCommit (id : Z)
| EvRollback (id : Z)
| EvExecute (sql : string) (transactionID : Z)
| EvSplitParams
| EvGetConn
| EvDone
| EvAlgorithm (algorithm : SplitQueryRequest_Algorithm)
| EvSplit.

Definition duplicate_key : TabletError :=
  {| Message := "Duplicate entry 'alice' for key 'PRIMARY' (errno 1062) (sqlstate 23000)";
     SQLError := 1062; SQLState := "23000"; TE_ErrorCode := ErrorCode_INTEGRITY_ERROR |}.

Definition render_type (t : TabletType) : string :=
  if bool_decide (t = TabletType_MASTER) then "MASTER"
  else if bool_decide (t = TabletType_REPLICA) then "REPLICA"
  else if bool_decide (t = TabletType_RDONLY) then "RDONLY"
  else show_int t.

Definition begun (log : list Event) : Z :=
  Z.of_nat (length (List.filter
    (fun e => match e with EvBegin _ => true | _ => false end) log)).

Definition open_result (op : Opener) (log : list Event) : option error * list Event :=
  match op with
  | txThrottler_Open "down" _ => (Some (OtherErr "topology is down"), log ++ [EvOpener op])
  | _ => (None, log ++ [EvOpener op])
  end.

Definition execute (sql : string) (transactionID : Z) (log : list Event)
    : outcome (string + error) * list Event :=
  if bool_decide (sql = "fail")
  then (Done (inr (TabletErr duplicate_key)), log ++ [EvExecute sql transactionID])
  else (Done (inl sql), log ++ [EvExecute sql transactionID]).

Definition collaborators (terse : bool) : Collaborators :=
  {| Backend := list Event;
     Result := string;
     ExecuteOptions := unit;
     RealtimeStats := Z;
     SplitParams := BoundQuery;
     SplitAlgorithm := SplitQueryRequest_Algorithm;
     QuerySplit := string;
     TabletType_String := render_type;
     Algorithm_String := show_int;
     QueryAsString := fun sql _ => sql;
     TabletError_Error := Message;
     tb_Stack := "";
     TerseErrors := terse;
     run_service := fun sv log => log ++ [EvService sv];
     run_opener := open_result;
     txThrottler_Throttle := fun log => (Done false, log);
     txPool_Begin := fun log => (Done (begun log + 1, None), log ++ [EvBegin (begun log + 1)]);
     txPool_Commit := fun id log => (Done None, log ++ [EvCommit id]);
     txPool_Rollback := fun id log => (Done None, log ++ [EvRollback id]);
     qre_Execute := fun sql _ id _ log => execute sql id log;
     NewSplitParamsGivenNumRowsPerQueryPart :=
       fun q _ _ log => (Done (inl q), log ++ [EvSplitParams]);
     NewSplitParamsGivenSplitCount :=
       fun q _ _ log => (Done (inl q), log ++ [EvSplitParams]);
     splitExecuter_getConn := fun log => (Done None, log ++ [EvGetConn]);
     splitExecuter_done := fun log => log ++ [EvDone];
     NewFullScanAlgorithm := fun _ log => (Done (inl SplitQueryRequest_FULL_SCAN),
                                           log ++ [EvAlgorithm SplitQueryRequest_FULL_SCAN]);
     NewEqualSplitsAlgorithm := fun _ log => (Done (inl SplitQueryRequest_EQUAL_SPLITS),
                                              log ++ [EvAlgorithm SplitQueryRequest_EQUAL_SPLITS]);
     Splitter_Split := fun q _ log => (Done (inl [Sql q]), log ++ [EvSplit]) |}.

(** A controller for target (ks, shard 0, [tabletType]) in state [st] with
    nothing in flight and no subscriber. *)
Definition server (terse : bool) (st : State) (tabletType : TabletType)
    : @TabletServer (collaborators terse) :=
  @mkTabletServer (collaborators terse) st 0
    {| Keyspace := "ks"; Shard := "0"; Target_TabletType := tabletType |}
    [] 0 0 [] 0 ∅ None.

Definition remote : Context := {| isLocalContext := false |}.

Definition to (tabletType : TabletType) : option Target :=
  Some {| Keyspace := "ks"; Shard := "0"; Target_TabletType := tabletType |}.

Definition query (sql : string) : BoundQuery := {| Sql := sql; BindVariables := ∅ |}.

End Recorder.

(** ** Collaborators under load

    The recording collaborators with a transaction throttler that always
    throttles, and a message generator and a database probe to run the
    controller with. *)
Module Busy.

Import Recorder.

Definition collaborators : Collaborators :=
  {| Backend := list Event;
     Result := string;
     ExecuteOptions := unit;
     RealtimeStats := Z;
     SplitParams := BoundQuery;
     SplitAlgorithm := SplitQueryRequest_Algorithm;
     QuerySplit := string;
     TabletType_String := render_type;
     Algorithm_String := show_int;
     QueryAsString := fun sql _ => sql;
     TabletError_Error := Message;
     tb_Stack := "";
     TerseErrors := true;
     run_service := fun sv log => log ++ [EvService sv];
     run_opener := open_result;
     txThrottler_Throttle := fun log => (Done true, log);
     txPool_Begin := fun log => (Done (begun log + 1, None), log ++ [EvBegin (begun log + 1)]);
     txPool_Commit := fun id log => (Done None, log ++ [EvCommit id]);
     txPool_Rollback := fun id log => (Done None, log ++ [EvRollback id]);
     qre_Execute := fun sql _ id _ log => execute sql id log;
     NewSplitParamsGivenNumRowsPerQueryPart :=
       fun q _ _ log => (Done (inl q), log ++ [EvSplitParams]);
     NewSplitParamsGivenSplitCount :=
       fun q _ _ log => (Done (inl q), log ++ [EvSplitParams]);
     splitExecuter_getConn := fun log => (Done None, log ++ [EvGetConn]);
     splitExecuter_done := fun log => log ++ [EvDone];
     NewFullScanAlgorithm := fun _ log => (Done (inl SplitQueryRequest_FULL_SCAN),
                                           log ++ [EvAlgorithm SplitQueryRequest_FULL_SCAN]);
     NewEqualSplitsAlgorithm := fun _ log => (Done (inl SplitQueryRequest_EQUAL_SPLITS),
                                              log ++ [EvAlgorithm SplitQueryRequest_EQUAL_SPLITS]);
     Splitter_Split := fun q _ log => (Done (inl [Sql q]), log ++ [EvSplit]) |}.

(** A serving MASTER for target (ks, shard 0) with nothing in flight. *)
Definition master : @TabletServer collaborators :=
  @mkTabletServer collaborators StateServing 0
    {| Keyspace := "ks"; Shard := "0"; Target_TabletType := TabletType_MASTER |}
    [] 0 0 [] 0 ∅ None.

(** The messager's generator of an acknowledgement, and one that fails. *)
Definition ack_query (log : list Event)
    : outcome ((string * BindVars) + error) * list Event :=
  (Done (inl ("ack", ∅)), log).

Definition no_such_table (log : list Event)
    : outcome ((string * BindVars) + error) * list Event :=
  (Done (inr (OtherErr "message table not found")), log).

(** The number of rows a recorded result stands for. *)
Definition rows (result : string) : Z := Z.of_nat (String.length result).

(** A probe that finds the database gone. *)
Definition unreachable (log : list Event) : bool * list Event := (false, log).

End Busy.

(** * Properties *)

Section Properties.

Context `{Collab : Collaborators}.

Implicit Types (s : TabletServer) (ctx : Context) (tgt : option Target).

(** ** Admission *)

Lemma existsb_alsoAllow (x : TabletType) (l : list TabletType) :
  existsb (fun otherType => bool_decide (x = otherType)) l = true <-> x ∈ l.
Proof.
  rewrite existsb_exists. split.
  - intros (y & Hin & Hy). apply bool_decide_eq_true in Hy. subst y.
    by apply list_elem_of_In.
  - intros Hin. exists x. split.
    + by apply list_elem_of_In.
    + by apply bool_decide_eq_true.
Qed.

(** verifyTarget either registers the request or refuses it with
    QUERY_NOT_SERVED and leaves the controller as it was. *)
Lemma verifyTarget_cases ctx tgt isTx s :
  verifyTarget ctx tgt isTx s = (None, register_request isTx s) \/
  exists msg, verifyTarget ctx tgt isTx s =
    (Some (TabletErr (NewTabletError ErrorCode_QUERY_NOT_SERVED msg)), s).
Proof.
  unfold verifyTarget. destruct tgt as [t|].
  - repeat (case_match; eauto).
  - case_match; eauto.
Qed.

Lemma startRequest_cases ctx tgt isTx allowOnShutdown s :
  startRequest ctx tgt isTx allowOnShutdown s = (None, register_request isTx s) \/
  exists msg, startRequest ctx tgt isTx allowOnShutdown s =
    (Some (TabletErr (NewTabletError ErrorCode_QUERY_NOT_SERVED msg)), s).
Proof.
  unfold startRequest.
  repeat case_match; eauto using verifyTarget_cases.
Qed.

Lemma verifyTarget_None_iff ctx tgt isTx s :
  fst (verifyTarget ctx tgt isTx s) = None <->
  (forall t, tgt = Some t -> target_admits isTx t s) /\
  (tgt = None -> isLocalContext ctx = true).
Proof.
  unfold verifyTarget. destruct tgt as [t|].
  - transitivity (target_admits isTx t s); [|naive_solver].
    unfold target_admits.
    destruct (existsb _ (alsoAllow s)) eqn:Hex.
    + apply existsb_alsoAllow in Hex.
      destruct isTx; repeat case_bool_decide; simpl; naive_solver.
    + assert (Target_TabletType t ∉ alsoAllow s) as Hnot.
      { intros Hin. apply existsb_alsoAllow in Hin. congruence. }
      destruct isTx; repeat case_bool_decide; simpl; naive_solver.
  - destruct (isLocalContext ctx); simpl; naive_solver.
Qed.

Lemma startRequest_None_iff ctx tgt isTx allowOnShutdown s :
  fst (startRequest ctx tgt isTx allowOnShutdown s) = None <->
  admissible ctx tgt isTx allowOnShutdown s.
Proof.
  unfold startRequest, admissible, admission_as_stated, state_admits.
  pose proof (verifyTarget_None_iff ctx tgt isTx s) as Hv.
  case_bool_decide as Hserving.
  - rewrite Hv. tauto.
  - destruct allowOnShutdown; simpl.
    + case_bool_decide as Hdown.
      * rewrite Hv. tauto.
      * split; [done|]. intros [[[?|[_ ?]] _] _]; done.
    + split; [done|]. intros [[[?|[? _]] _] _]; done.
Qed.

(** Admission reads the state, the target and the also-allow list only. *)
Lemma admissible_ext ctx tgt isTx allowOnShutdown s s' :
  state s' = state s -> target s' = target s -> alsoAllow s' = alsoAllow s ->
  admissible ctx tgt isTx allowOnShutdown s ->
  admissible ctx tgt isTx allowOnShutdown s'.
Proof.
  unfold admissible, admission_as_stated, state_admits, target_admits.
  intros -> -> ->. done.
Qed.

Lemma admissible_dec ctx tgt isTx allowOnShutdown s :
  admissible ctx tgt isTx allowOnShutdown s \/
  ~ admissible ctx tgt isTx allowOnShutdown s.
Proof.
  rewrite <- startRequest_None_iff.
  destruct (fst (startRequest ctx tgt isTx allowOnShutdown s)); [by right | by left].
Qed.

Lemma end_after_register isTx (b : Backend) s :
  endRequest isTx (set_backend b (register_request isTx s)) = set_backend b s.
Proof.
  destruct s, isTx; unfold endRequest, register_request, set_backend,
    set_requests, set_txRequests; simpl; f_equal; lia.
Qed.

Lemma end_after_register_same isTx s :
  endRequest isTx (register_request isTx s) = s.
Proof.
  destruct s, isTx; unfold endRequest, register_request,
    set_requests, set_txRequests; simpl; f_equal; lia.
Qed.

(** C1 (as amended). startRequest lets a request in exactly when the state
    admits it (SERVING, or SHUTTING_DOWN with allowOnShutdown), a non-nil
    target names the controller's keyspace and shard, a transactional
    request finds the controller's role to be MASTER, the target's role is the
    controller's or one of the also-allow list, and a nil target comes with
    the process-local context.  A request let in adds one to the request
    counter, and one to the transaction counter when it is transactional; a
    request refused gets a QUERY_NOT_SERVED error and the controller, its two
    counters included, is unchanged. *)
Theorem startRequest_admission ctx tgt isTx allowOnShutdown s :
  (fst (startRequest ctx tgt isTx allowOnShutdown s) = None <->
   admissible ctx tgt isTx allowOnShutdown s) /\
  (admissible ctx tgt isTx allowOnShutdown s ->
   snd (startRequest ctx tgt isTx allowOnShutdown s) = register_request isTx s /\
   requests (register_request isTx s) = requests s + 1 /\
   txRequests (register_request isTx s) = txRequests s + (if isTx then 1 else 0)) /\
  (~ admissible ctx tgt isTx allowOnShutdown s ->
   exists msg, startRequest ctx tgt isTx allowOnShutdown s =
     (Some (TabletErr (NewTabletError ErrorCode_QUERY_NOT_SERVED msg)), s)).
Proof.
  pose proof (startRequest_None_iff ctx tgt isTx allowOnShutdown s) as Hiff.
  split; [exact Hiff|]. split.
  - intros Hadm. apply Hiff in Hadm.
    destruct (startRequest_cases ctx tgt isTx allowOnShutdown s) as [Heq|[msg Heq]];
      rewrite Heq in Hadm |- *; [|done].
    split; [done|]. unfold register_request.
    destruct isTx; simpl; split; lia.
  - intros Hnot.
    destruct (startRequest_cases ctx tgt isTx allowOnShutdown s) as [Heq|[msg Heq]].
    + exfalso. apply Hnot, Hiff. by rewrite Heq.
    + eauto.
Qed.

(** ** The health view and the lameduck flag *)

Lemma GetState_lameduck s : lameduck s <> 0 -> GetState s = "NOT_SERVING".
Proof. intros Hl. unfold GetState. by rewrite bool_decide_eq_true_2. Qed.

Lemma verifyTarget_set_lameduck ctx tgt isTx l s :
  verifyTarget ctx tgt isTx (set_lameduck l s) =
  (fst (verifyTarget ctx tgt isTx s), set_lameduck l (snd (verifyTarget ctx tgt isTx s))).
Proof.
  unfold verifyTarget. destruct tgt as [t|]; simpl.
  - repeat case_match; simpl; try done; by destruct isTx.
  - case_match; simpl; try done; by destruct isTx.
Qed.

(** C9. The lameduck flag changes the health view only.  When it is set,
    GetState answers NOT_SERVING whatever the internal state, so IsServing is
    false; and startRequest gives the same answer and makes the same change to
    the controller whether the flag is set or not. *)
Theorem lameduck_changes_health_only :
  (forall s, lameduck s <> 0 -> GetState s = "NOT_SERVING" /\ IsServing s = false) /\
  (forall ctx tgt isTx allowOnShutdown l s,
     startRequest ctx tgt isTx allowOnShutdown (set_lameduck l s) =
     (fst (startRequest ctx tgt isTx allowOnShutdown s),
      set_lameduck l (snd (startRequest ctx tgt isTx allowOnShutdown s)))).
Proof.
  split.
  - intros s Hl. unfold IsServing. by rewrite GetState_lameduck.
  - intros. unfold startRequest. simpl.
    repeat case_match; simpl; auto using verifyTarget_set_lameduck.
Qed.

(** ** The request wrapper *)

Lemma backend_register_request isTx s :
  backend (register_request isTx s) = backend s.
Proof. by destruct isTx. Qed.

(** A request that is let in runs its closure on the backend and leaves
    everything else as it was. *)
Lemma execRequest_admissible {A : Type} ctx sql bindVariables tgt isTx
    allowOnShutdown (zero : A) exec s :
  admissible ctx tgt isTx allowOnShutdown s ->
  execRequest ctx sql bindVariables tgt isTx allowOnShutdown zero exec s =
  (match fst (exec (backend s)) with
   | Done (a, None) => (a, None)
   | Done (a, Some err) => (a, Some (handleError sql bindVariables err))
   | Panic x => (zero, Some (recovered_error sql bindVariables x))
   end,
   set_backend (snd (exec (backend s))) s).
Proof.
  intros Hadm. apply startRequest_None_iff in Hadm. unfold execRequest.
  destruct (startRequest_cases ctx tgt isTx allowOnShutdown s) as [Heq|[msg Heq]];
    rewrite Heq in Hadm |- *; [|done].
  rewrite backend_register_request.
  destruct (exec (backend s)) as [r b]. simpl.
  rewrite end_after_register.
  destruct r as [[a [err|]]|x]; done.
Qed.

(** A request that is refused never runs its closure. *)
Lemma execRequest_refused {A : Type} ctx sql bindVariables tgt isTx
    allowOnShutdown (zero : A) exec s :
  ~ admissible ctx tgt isTx allowOnShutdown s ->
  exists msg,
    execRequest ctx sql bindVariables tgt isTx allowOnShutdown zero exec s =
    ((zero, Some (TabletErr (NewTabletError ErrorCode_QUERY_NOT_SERVED msg))), s).
Proof.
  intros Hnot. unfold execRequest.
  destruct (startRequest_cases ctx tgt isTx allowOnShutdown s) as [Heq|[msg Heq]].
  - exfalso. apply Hnot, startRequest_None_iff. by rewrite Heq.
  - rewrite Heq. eauto.
Qed.

(** Whatever happens, a request changes the backend only. *)
Lemma execRequest_frame {A : Type} ctx sql bindVariables tgt isTx
    allowOnShutdown (zero : A) exec s :
  snd (execRequest ctx sql bindVariables tgt isTx allowOnShutdown zero exec s) =
  set_backend
    (backend (snd (execRequest ctx sql bindVariables tgt isTx allowOnShutdown zero exec s)))
    s.
Proof.
  unfold execRequest.
  destruct (startRequest_cases ctx tgt isTx allowOnShutdown s) as [Heq|[msg Heq]];
    rewrite Heq.
  - rewrite backend_register_request.
    destruct (exec (backend s)) as [r b]. rewrite end_after_register.
    destruct r as [[a [err|]]|x]; by destruct s.
  - by destruct s.
Qed.

Lemma only_error_fst m (b : Backend) sql bindVariables :
  match fst (only_error m b) with
  | Done (_, None) => None
  | Done (_, Some err) => Some (handleError sql bindVariables err)
  | Panic x => Some (recovered_error sql bindVariables x)
  end = returned_error sql bindVariables (fst (m b)).
Proof. unfold only_error. by destruct (m b) as [[[err|]|x] b1]. Qed.

Lemma only_error_snd m (b : Backend) : snd (only_error m b) = snd (m b).
Proof. unfold only_error. by destruct (m b) as [[err|x] b1]. Qed.

Lemma Commit_admissible ctx tgt transactionID s :
  admissible ctx tgt true true s ->
  Commit ctx tgt transactionID s =
  (returned_error "commit" ∅ (fst (txPool_Commit transactionID (backend s))),
   set_backend (snd (txPool_Commit transactionID (backend s))) s).
Proof.
  intros Hadm. unfold Commit.
  rewrite (execRequest_admissible _ _ _ _ _ _ _ _ _ Hadm).
  rewrite only_error_snd.
  pose proof (only_error_fst (txPool_Commit transactionID) (backend s) "commit" ∅) as Hfst.
  destruct (fst (only_error (txPool_Commit transactionID) (backend s)))
    as [[[] [err|]]|x]; by rewrite <- Hfst.
Qed.

Lemma Rollback_admissible ctx tgt transactionID s :
  admissible ctx tgt true true s ->
  Rollback ctx tgt transactionID s =
  (returned_error "rollback" ∅ (fst (txPool_Rollback transactionID (backend s))),
   set_backend (snd (txPool_Rollback transactionID (backend s))) s).
Proof.
  intros Hadm. unfold Rollback.
  rewrite (execRequest_admissible _ _ _ _ _ _ _ _ _ Hadm).
  rewrite only_error_snd.
  pose proof (only_error_fst (txPool_Rollback transactionID) (backend s) "rollback" ∅) as Hfst.
  destruct (fst (only_error (txPool_Rollback transactionID) (backend s)))
    as [[[] [err|]]|x]; by rewrite <- Hfst.
Qed.

(** C2. While the controller is in SHUTTING_DOWN, Begin is refused with
    QUERY_NOT_SERVED and changes nothing (it passes allowOnShutdown = false),
    whereas Commit and Rollback with an acceptable target are let in (they
    pass allowOnShutdown = true): the transaction pool's Commit, or Rollback,
    runs on the transaction and its outcome is what the call returns. *)
Theorem shutting_down_refuses_Begin_only ctx tgt transactionID s :
  state s = StateShuttingDown ->
  (exists msg, Begin ctx tgt s =
     ((0, Some (TabletErr (NewTabletError ErrorCode_QUERY_NOT_SERVED msg))), s)) /\
  ((forall t, tgt = Some t -> target_admits true t s) ->
   (tgt = None -> isLocalContext ctx = true) ->
   fst (startRequest ctx tgt true true s) = None /\
   Commit ctx tgt transactionID s =
     (returned_error "commit" ∅ (fst (txPool_Commit transactionID (backend s))),
      set_backend (snd (txPool_Commit transactionID (backend s))) s) /\
   Rollback ctx tgt transactionID s =
     (returned_error "rollback" ∅ (fst (txPool_Rollback transactionID (backend s))),
      set_backend (snd (txPool_Rollback transactionID (backend s))) s)).
Proof.
  intros Hdown. split.
  - apply execRequest_refused.
    intros [[[Hs|[Hf _]] _] _]; [congruence | done].
  - intros Htgt Hnil.
    assert (admissible ctx tgt true true s) as Hadm.
    { split; [split; [right; by split | exact Htgt] | exact Hnil]. }
    split; [by apply startRequest_None_iff|].
    split; [by apply Commit_admissible | by apply Rollback_admissible].
Qed.

(** ** SetServingType *)

Lemma state_set_alsoAllow allow s : state (set_alsoAllow allow s) = state s.
Proof. done. Qed.

Lemma decideAction_transient tabletType serving allow s :
  state s = StateTransitioning \/ state s = StateShuttingDown ->
  decideAction tabletType serving allow s =
  ((actionNone,
    Some (TabletErr (NewTabletError ErrorCode_INTERNAL_ERROR
            ("cannot SetServingType, current state: " +:+ stateName (state s))))),
   set_TabletType tabletType (set_alsoAllow allow s)).
Proof.
  intros Hst. unfold decideAction. simpl.
  rewrite (bool_decide_eq_false_2 (state s = StateServing)) by (destruct Hst; congruence).
  rewrite !andb_false_r.
  by destruct Hst as [-> | ->].
Qed.

(** C4. A call of SetServingType made while the state is TRANSITIONING or
    SHUTTING_DOWN returns an INTERNAL_ERROR error, reports stateChanged =
    false and leaves the serving state as it was. *)
Theorem SetServingType_in_transient_state tabletType serving allow s :
  state s = StateTransitioning \/ state s = StateShuttingDown ->
  (exists msg, fst (SetServingType tabletType serving allow s) =
     (false, Some (TabletErr (NewTabletError ErrorCode_INTERNAL_ERROR msg)))) /\
  state (snd (SetServingType tabletType serving allow s)) = state s.
Proof.
  intros Hst. unfold SetServingType, SetServingType_body.
  rewrite (decideAction_transient _ _ _ _ Hst). simpl. eauto.
Qed.

(** C5. A call SetServingType(tabletType, true, alsoAllow) made while the
    state is SERVING and tabletType is the current target role decides the
    action none: it returns stateChanged = false and no error, and the state
    stays SERVING; the also-allow list is replaced and lameduck is cleared,
    nothing else changes. *)
Theorem SetServingType_already_serving tabletType allow s :
  state s = StateServing ->
  Target_TabletType (target s) = tabletType ->
  fst (decideAction tabletType true allow s) = (actionNone, None) /\
  SetServingType tabletType true allow s =
    ((false, None), ExitLameduck (set_alsoAllow allow s)) /\
  state (snd (SetServingType tabletType true allow s)) = StateServing.
Proof.
  intros Hst Hty.
  assert (decideAction tabletType true allow s = ((actionNone, None), set_alsoAllow allow s))
    as Hdecide.
  { unfold decideAction. simpl.
    by rewrite !bool_decide_eq_true_2. }
  unfold SetServingType, SetServingType_body. rewrite Hdecide. simpl.
  by rewrite Hst.
Qed.

(** C10. Every call of SetServingType returns with the lameduck flag at 0:
    when the action decided is none, when the call fails in TRANSITIONING or
    SHUTTING_DOWN, when the start-up action fails and everything is closed
    again, and when the action succeeds. *)
Theorem SetServingType_clears_lameduck tabletType serving allow s :
  lameduck (snd (SetServingType tabletType serving allow s)) = 0.
Proof.
  unfold SetServingType.
  by destruct (SetServingType_body tabletType serving allow s).
Qed.

(** ** Terse errors *)

Lemma handleError_no_bindVariables sql terr :
  handleError sql ∅ (TabletErr terr) = TabletErr terr.
Proof.
  unfold handleError. rewrite map_size_empty.
  rewrite (bool_decide_eq_false_2 (0%nat <> 0%nat)) by auto.
  by rewrite andb_false_r.
Qed.

Lemma handleError_not_MySQL sql bindVariables terr :
  SQLError terr = 0 -> handleError sql bindVariables (TabletErr terr) = TabletErr terr.
Proof.
  intros Hzero. unfold handleError.
  rewrite (bool_decide_eq_false_2 (SQLError terr <> 0)) by auto.
  by rewrite andb_false_r.
Qed.

Lemma handleError_is_TabletErr sql bindVariables err :
  exists terr, handleError sql bindVariables err = TabletErr terr.
Proof. unfold handleError. repeat case_match; eauto. Qed.



(** ** Stream health *)

Lemma broadcast_loop_union (shr : StreamHealthResponse)
    (m0 m : gmap Z (Chan StreamHealthResponse)) :
  map_fold (fun id c acc => <[id := select_send_default c shr]> acc) m0 m =
  ((fun c => select_send_default c shr) <$> m) ∪ m0.
Proof.
  apply (map_fold_weak_ind
    (fun r m' => r = ((fun c => select_send_default c shr) <$> m') ∪ m0)).
  - by rewrite fmap_empty, (left_id_L ∅ (∪)).
  - intros id c m' r Hnone ->.
    by rewrite fmap_insert, insert_union_l.
Qed.

Lemma broadcast_loop_lookup (shr : StreamHealthResponse)
    (m : gmap Z (Chan StreamHealthResponse)) (id : Z) :
  broadcast_loop shr m !! id = (fun c => select_send_default c shr) <$> (m !! id).
Proof.
  unfold broadcast_loop. rewrite broadcast_loop_union, lookup_union, lookup_fmap.
  by destruct (m !! id).
Qed.

Lemma select_send_default_room {A : Type} (c : Chan A) (v : A) :
  (length (chan_buf c) < chan_cap c)%nat ->
  select_send_default c v = {| chan_cap := chan_cap c; chan_buf := chan_buf c ++ [v] |}.
Proof.
  intros Hroom. unfold select_send_default, chan_full.
  apply Nat.ltb_lt in Hroom. by rewrite Hroom.
Qed.

Lemma select_send_default_full {A : Type} (c : Chan A) (v : A) :
  (chan_cap c <= length (chan_buf c))%nat -> select_send_default c v = c.
Proof.
  intros Hfull. unfold select_send_default, chan_full.
  apply Nat.ltb_ge in Hfull. by rewrite Hfull.
Qed.

(** C8. BroadcastHealth is a function of the controller's state, so a
    broadcast always ends, and after it: a subscriber whose channel had room
    has the snapshot appended to its queue; a subscriber whose channel was
    full has its channel exactly as before, the snapshot being dropped; no
    subscriber is added or removed; the last-known snapshot is the snapshot
    just built; and nothing else of the controller changes.  The channel a
    subscriber gets from streamHealthRegister is empty with capacity 10, and
    neither kind of send changes a capacity. *)
Theorem BroadcastHealth_fan_out terTimestamp stats s :
  let shr := health_snapshot terTimestamp stats s in
  let s' := BroadcastHealth terTimestamp stats s in
  (forall id c, streamHealthMap s !! id = Some c ->
     (length (chan_buf c) < chan_cap c)%nat ->
     streamHealthMap s' !! id =
       Some {| chan_cap := chan_cap c; chan_buf := chan_buf c ++ [shr] |}) /\
  (forall id c, streamHealthMap s !! id = Some c ->
     (chan_cap c <= length (chan_buf c))%nat ->
     streamHealthMap s' !! id = Some c) /\
  (forall id, streamHealthMap s !! id = None -> streamHealthMap s' !! id = None) /\
  lastStreamHealthResponse s' = Some shr /\
  s' = set_lastStreamHealthResponse (Some shr)
         (set_streamHealth (streamHealthIndex s) (streamHealthMap s') s) /\
  (forall s0,
     snd (fst (streamHealthRegister s0)) = {| chan_cap := 10; chan_buf := [] |} /\
     streamHealthMap (snd (streamHealthRegister s0)) !! fst (fst (streamHealthRegister s0)) =
       Some {| chan_cap := 10; chan_buf := [] |}).
Proof.
  intros shr s'. subst s'. unfold BroadcastHealth. fold shr. simpl.
  repeat split.
  - intros id c Hc Hroom. rewrite broadcast_loop_lookup, Hc. simpl.
    by rewrite select_send_default_room.
  - intros id c Hc Hfull. rewrite broadcast_loop_lookup, Hc. simpl.
    by rewrite select_send_default_full.
  - intros id Hnone. by rewrite broadcast_loop_lookup, Hnone.
  - simpl. by apply lookup_insert_eq.
Qed.

(** ** SplitQuery *)

Lemma set_backend_same s : set_backend (backend s) s = s.
Proof. by destruct s. Qed.

Lemma set_backend_twice (b b' : Backend) s :
  set_backend b (set_backend b' s) = set_backend b s.
Proof. done. Qed.

(** The validation passes exactly on the valid parameters, and otherwise
    returns a BAD_INPUT error. *)
Lemma validateSplitQueryParameters_cases t query splitColumns splitCount
    numRowsPerQueryPart algorithm :
  (split_parameters_valid t splitCount numRowsPerQueryPart algorithm /\
   validateSplitQueryParameters (Some t) query splitColumns splitCount
     numRowsPerQueryPart algorithm = Done None) \/
  (~ split_parameters_valid t splitCount numRowsPerQueryPart algorithm /\
   exists msg,
     validateSplitQueryParameters (Some t) query splitColumns splitCount
       numRowsPerQueryPart algorithm =
     Done (Some (TabletErr (NewTabletError ErrorCode_BAD_INPUT msg)))).
Proof.
  unfold validateSplitQueryParameters, split_parameters_valid.
  case_bool_decide as Hrole; [right; split; [tauto | eauto] |].
  case_bool_decide as Hrows; [right; split; [lia | eauto] |].
  case_bool_decide as Hcount; [right; split; [lia | eauto] |].
  destruct (bool_decide (splitCount = 0) && bool_decide (numRowsPerQueryPart = 0)
            || bool_decide (splitCount <> 0) && bool_decide (numRowsPerQueryPart <> 0))
    eqn:Hone.
  { right. split; [|eauto].
    apply orb_true_iff in Hone as [Hone|Hone]; apply andb_true_iff in Hone as [H1 H2];
      apply bool_decide_eq_true in H1, H2; lia. }
  apply orb_false_iff in Hone as [Hzero Hboth].
  destruct (bool_decide (algorithm <> SplitQueryRequest_EQUAL_SPLITS)
            && bool_decide (algorithm <> SplitQueryRequest_FULL_SCAN)) eqn:Halg.
  { right. split; [|eauto].
    apply andb_true_iff in Halg as [H1 H2]. apply bool_decide_eq_true in H1, H2. tauto. }
  left. split; [|done].
  apply andb_false_iff in Halg.
  repeat split; try lia.
  - destruct (decide (splitCount = 0)) as [Hsc|Hsc];
      destruct (decide (numRowsPerQueryPart = 0)) as [Hn|Hn]; auto.
    + by rewrite !bool_decide_eq_true_2 in Hzero.
    + by rewrite !bool_decide_eq_true_2 in Hboth.
  - destruct Halg as [Halg|Halg]; apply bool_decide_eq_false in Halg.
    + left. by destruct (decide (algorithm = SplitQueryRequest_EQUAL_SPLITS)).
    + right. by destruct (decide (algorithm = SplitQueryRequest_FULL_SCAN)).
Qed.

Lemma refused_not_valid t splitCount numRowsPerQueryPart algorithm :
  split_parameters_refused t splitCount numRowsPerQueryPart algorithm ->
  ~ split_parameters_valid t splitCount numRowsPerQueryPart algorithm.
Proof. unfold split_parameters_refused, split_parameters_valid. lia. Qed.

Lemma SplitQuery_not_valid ctx t query splitColumns splitCount
    numRowsPerQueryPart algorithm s :
  admissible ctx (Some t) false false s ->
  ~ split_parameters_valid t splitCount numRowsPerQueryPart algorithm ->
  exists msg,
    SplitQuery ctx (Some t) query splitColumns splitCount numRowsPerQueryPart
      algorithm s =
    (([], Some (TabletErr (NewTabletError ErrorCode_BAD_INPUT msg))), s).
Proof.
  intros Hadm Hnot.
  destruct (validateSplitQueryParameters_cases t query splitColumns splitCount
              numRowsPerQueryPart algorithm) as [[Hv _]|[_ [msg Hmsg]]]; [done|].
  exists msg. unfold SplitQuery.
  rewrite (execRequest_admissible _ _ _ _ _ _ _ _ _ Hadm).
  unfold SplitQuery_closure. rewrite Hmsg. simpl.
  by rewrite handleError_not_MySQL, set_backend_same.
Qed.

(** C7 (as amended). For a request with a non-nil target that startRequest
    lets in, SplitQuery fails with BAD_INPUT, and leaves the controller and
    the backend untouched, whenever the target role is not RDONLY, whenever
    split-count and rows-per-split are both zero or both non-zero, and
    whenever the algorithm is neither EQUAL_SPLITS nor FULL_SCAN; and the
    split computation runs only on parameters that pass the validation:
    either the call is such a BAD_INPUT failure, or the parameters are valid
    and the call is the request wrapper running the split computation. *)
Theorem SplitQuery_validation ctx t query splitColumns splitCount
    numRowsPerQueryPart algorithm s :
  admissible ctx (Some t) false false s ->
  (split_parameters_refused t splitCount numRowsPerQueryPart algorithm ->
   exists msg,
     SplitQuery ctx (Some t) query splitColumns splitCount numRowsPerQueryPart
       algorithm s =
     (([], Some (TabletErr (NewTabletError ErrorCode_BAD_INPUT msg))), s)) /\
  ((~ split_parameters_valid t splitCount numRowsPerQueryPart algorithm /\
    exists msg,
      SplitQuery ctx (Some t) query splitColumns splitCount numRowsPerQueryPart
        algorithm s =
      (([], Some (TabletErr (NewTabletError ErrorCode_BAD_INPUT msg))), s)) \/
   (split_parameters_valid t splitCount numRowsPerQueryPart algorithm /\
    SplitQuery ctx (Some t) query splitColumns splitCount numRowsPerQueryPart
      algorithm s =
    execRequest ctx (Sql query) (BindVariables query) (Some t) false false []
      (SplitQuery_compute query splitColumns splitCount numRowsPerQueryPart algorithm)
      s)).
Proof.
  intros Hadm. split.
  - intros Hrefused. apply SplitQuery_not_valid; [done|].
    by apply refused_not_valid.
  - destruct (validateSplitQueryParameters_cases t query splitColumns splitCount
                numRowsPerQueryPart algorithm) as [[Hv Hok]|[Hnot _]].
    + right. split; [done|]. unfold SplitQuery.
      rewrite !(execRequest_admissible _ _ _ _ _ _ _ _ _ Hadm).
      unfold SplitQuery_closure. by rewrite Hok.
    + left. split; [done|]. by apply SplitQuery_not_valid.
Qed.

(** Once the parameters are valid, neither createSplitParams nor
    createSplitQueryAlgorithmObject reaches its panic. *)
Lemma createSplitParams_valid t query splitColumns splitCount
    numRowsPerQueryPart algorithm (b : Backend) :
  split_parameters_valid t splitCount numRowsPerQueryPart algorithm ->
  createSplitParams query splitColumns splitCount numRowsPerQueryPart b =
  convert_split_error
    (NewSplitParamsGivenNumRowsPerQueryPart query splitColumns numRowsPerQueryPart b) \/
  createSplitParams query splitColumns splitCount numRowsPerQueryPart b =
  convert_split_error
    (NewSplitParamsGivenSplitCount query splitColumns splitCount b).
Proof.
  intros (_ & _ & _ & [[Hsc Hn]|[Hsc Hn]] & _); unfold createSplitParams.
  - left.
    rewrite (bool_decide_eq_true_2 (numRowsPerQueryPart <> 0)) by done.
    by rewrite (bool_decide_eq_true_2 (splitCount = 0)).
  - right.
    rewrite (bool_decide_eq_false_2 (numRowsPerQueryPart <> 0)) by tauto.
    rewrite (bool_decide_eq_true_2 (numRowsPerQueryPart = 0)) by done.
    by rewrite (bool_decide_eq_true_2 (splitCount <> 0)).
Qed.

(** ** ExecuteBatch *)

(** Every error execRequest returns is a TabletError. *)
Lemma execRequest_error_is_TabletErr {A : Type} ctx sql bindVariables tgt isTx
    allowOnShutdown (zero : A) exec s a err s' :
  execRequest ctx sql bindVariables tgt isTx allowOnShutdown zero exec s =
    ((a, Some err), s') ->
  exists terr, err = TabletErr terr.
Proof.
  unfold execRequest.
  destruct (startRequest_cases ctx tgt isTx allowOnShutdown s) as [Heq|[msg Heq]];
    rewrite Heq.
  - destruct (exec _) as [[[a' [err'|]]|x] b]; intros [= <- <- <-].
    + apply handleError_is_TabletErr.
    + unfold recovered_error. eauto.
  - intros [= <- <- <-]. eauto.
Qed.

Lemma Execute_frame ctx tgt sql bindVariables transactionID options s :
  snd (Execute ctx tgt sql bindVariables transactionID options s) =
  set_backend
    (backend (snd (Execute ctx tgt sql bindVariables transactionID options s))) s.
Proof. apply execRequest_frame. Qed.

Lemma Execute_all_frame ctx tgt queries transactionID options s results s' :
  Execute_all ctx tgt queries transactionID options s = Some (results, s') ->
  s' = set_backend (backend s') s.
Proof.
  revert s results. induction queries as [|bound rest IH]; intros s results; simpl.
  - intros [= <- <-]. by rewrite set_backend_same.
  - pose proof (Execute_frame ctx tgt (Sql bound) (BindVariables bound)
                  transactionID options s) as Hframe.
    destruct (Execute _ _ _ _ _ _ s) as [[[result|] [err|]] s1]; try done.
    destruct (Execute_all _ _ rest _ _ s1) as [[results' s2]|] eqn:Hrest; [|done].
    intros [= <- <-]. apply IH in Hrest. simpl in Hframe.
    rewrite Hrest, Hframe. done.
Qed.

(** The loop stops at the first query that fails, with that query's
    error. *)
Lemma ExecuteBatch_loop_fails ctx tgt pre bound post transactionID options
    acc s results s1 r err s2 :
  Execute_all ctx tgt pre transactionID options s = Some (results, s1) ->
  Execute ctx tgt (Sql bound) (BindVariables bound) transactionID options s1 =
    ((r, Some err), s2) ->
  ExecuteBatch_loop ctx tgt (pre ++ bound :: post) transactionID options acc s =
    (([], Done (Some err)), s2).
Proof.
  revert acc s results. induction pre as [|q pre IH]; intros acc s results; simpl.
  - intros [= <- <-] Hfail. rewrite Hfail.
    destruct (execRequest_error_is_TabletErr _ _ _ _ _ _ _ _ _ _ _ _ Hfail) as [terr ->].
    rewrite handleError_no_bindVariables. by destruct r.
  - destruct (Execute _ _ _ _ _ _ s) as [[[result|] [err'|]] s'] eqn:Hq; try done.
    destruct (Execute_all _ _ pre _ _ s') as [[results' s'']|] eqn:Hpre; [|done].
    intros [= <- <-] Hfail. by apply (IH _ _ _ Hpre).
Qed.

Lemma Begin_frame ctx tgt s :
  snd (Begin ctx tgt s) = set_backend (backend (snd (Begin ctx tgt s))) s.
Proof. apply execRequest_frame. Qed.

Lemma Begin_succeeds_admissible ctx tgt s txid s' :
  Begin ctx tgt s = ((txid, None), s') -> admissible ctx tgt true false s.
Proof.
  intros Hbegin.
  destruct (admissible_dec ctx tgt true false s) as [Hadm|Hnot]; [done|].
  destruct (execRequest_refused ctx "begin" ∅ tgt true false 0 Begin_closure s Hnot)
    as [msg Hmsg].
  unfold Begin in Hbegin. congruence.
Qed.

Lemma admissible_for_conclusion ctx tgt s s' :
  state s' = state s -> target s' = target s -> alsoAllow s' = alsoAllow s ->
  admissible ctx tgt true false s -> admissible ctx tgt true true s'.
Proof.
  intros Hst Htg Hal [[Hstate Htgt] Hnil].
  apply (admissible_ext ctx tgt true true s s' Hst Htg Hal).
  split; [split|]; auto.
  destruct Hstate as [Hs|[Hf _]]; [by left | done].
Qed.

(** C6. ExecuteBatch returns BAD_INPUT for an empty query list, and for
    asTransaction together with a non-zero transaction id, in both cases
    without touching the controller.  With asTransaction, once the request is
    let in and Begin has opened transaction [txid] (a non-zero id), if the
    queries before [bound] succeed and [bound] fails with [err], the call
    returns no results and the error [err], and it ends with the transaction
    pool's Rollback of [txid] run on the backend as the failing query left
    it; nothing but the backend has changed. *)
Theorem ExecuteBatch_errors :
  (forall ctx tgt asTransaction transactionID options s,
     ExecuteBatch ctx tgt [] asTransaction transactionID options s =
     (([], Some (TabletErr (NewTabletError ErrorCode_BAD_INPUT "Empty query list"))), s)) /\
  (forall ctx tgt queries transactionID options s,
     transactionID <> 0 ->
     exists msg,
       ExecuteBatch ctx tgt queries true transactionID options s =
       (([], Some (TabletErr (NewTabletError ErrorCode_BAD_INPUT msg))), s)) /\
  (forall ctx tgt pre bound post options s s1 txid s2 results s3 r err s4,
     startRequest ctx tgt false false s = (None, s1) ->
     Begin ctx tgt s1 = ((txid, None), s2) ->
     txid <> 0 ->
     Execute_all ctx tgt pre txid options s2 = Some (results, s3) ->
     Execute ctx tgt (Sql bound) (BindVariables bound) txid options s3 =
       ((r, Some err), s4) ->
     ExecuteBatch ctx tgt (pre ++ bound :: post) true 0 options s =
     (([], Some err), set_backend (snd (txPool_Rollback txid (backend s4))) s)).
Proof.
  split; [done|]. split.
  - intros ctx tgt queries transactionID options s Hid. unfold ExecuteBatch.
    case_bool_decide; [eauto|].
    rewrite (bool_decide_eq_true_2 (transactionID <> 0)) by done. simpl. eauto.
  - intros ctx tgt pre bound post options s s1 txid s2 results s3 r err s4
      Hstart Hbegin Hid Hpre Hfail.
    unfold ExecuteBatch.
    rewrite bool_decide_eq_false_2 by (rewrite length_app; simpl; lia).
    rewrite (bool_decide_eq_false_2 (0 <> 0)) by auto. simpl.
    rewrite Hstart. unfold ExecuteBatch_body. rewrite Hbegin.
    unfold ExecuteBatch_run.
    rewrite (ExecuteBatch_loop_fails _ _ _ _ post _ _ [] _ _ _ _ _ _ Hpre Hfail).
    rewrite (bool_decide_eq_true_2 (txid <> 0)) by done.
    (* the states on the way differ from [s1] in the backend only *)
    assert (s1 = register_request false s) as Hs1.
    { destruct (startRequest_cases ctx tgt false false s) as [Heq|[msg Heq]];
        congruence. }
    pose proof (Begin_frame ctx tgt s1) as Hs2. rewrite Hbegin in Hs2. simpl in Hs2.
    pose proof (Execute_all_frame _ _ _ _ _ _ _ _ Hpre) as Hs3.
    pose proof (Execute_frame ctx tgt (Sql bound) (BindVariables bound) txid options s3)
      as Hs4. rewrite Hfail in Hs4. simpl in Hs4.
    assert (s4 = set_backend (backend s4) s1) as Hs41.
    { rewrite Hs4, Hs3, Hs2. done. }
    assert (admissible ctx tgt true true s4) as Hadm.
    { apply (admissible_for_conclusion ctx tgt s1 s4);
        [by rewrite Hs41 .. | by eapply Begin_succeeds_admissible]. }
    rewrite (Rollback_admissible _ _ _ _ Hadm). simpl.
    set (b := snd (txPool_Rollback txid (backend s4))).
    f_equal.
    transitivity (endRequest false (set_backend b (set_backend (backend s4) s1)));
      [by rewrite <- Hs41|].
    rewrite set_backend_twice, Hs1. apply end_after_register.
Qed.

End Properties.

(** * Further properties *)

Section MoreProperties.

Context `{Collab : Collaborators}.

Implicit Types (s : TabletServer) (ctx : Context) (tgt : option Target).

(** ** Admission and the request wrapper *)

(** X1. endRequest undoes startRequest: a request that is let in and then
    ended leaves the controller, both counters included, exactly as it
    was. *)
Theorem startRequest_endRequest_round_trip ctx tgt isTx allowOnShutdown s :
  fst (startRequest ctx tgt isTx allowOnShutdown s) = None ->
  endRequest isTx (snd (startRequest ctx tgt isTx allowOnShutdown s)) = s.
Proof.
  intros Hin.
  destruct (startRequest_cases ctx tgt isTx allowOnShutdown s) as [Heq|[msg Heq]];
    rewrite Heq in Hin |- *; [|done].
  apply end_after_register_same.
Qed.

(** X2. execRequest gives back what it takes: whatever the closure does
    (return nil, return an error, panic), the controller after the call
    differs from the one before in the backend only, so both counters are
    back at their values.  A refused request never runs the closure, and a
    panic of the closure comes back as an UNKNOWN_ERROR error with the
    captured value at its zero. *)
Theorem execRequest_balanced {A : Type} ctx sql bindVariables tgt isTx
    allowOnShutdown (zero : A) exec s :
  let r := execRequest ctx sql bindVariables tgt isTx allowOnShutdown zero exec s in
  snd r = set_backend (backend (snd r)) s /\
  requests (snd r) = requests s /\ txRequests (snd r) = txRequests s /\
  (fst (startRequest ctx tgt isTx allowOnShutdown s) <> None ->
   snd r = s /\
   exists msg, fst r = (zero, Some (TabletErr (NewTabletError ErrorCode_QUERY_NOT_SERVED msg)))) /\
  (fst (startRequest ctx tgt isTx allowOnShutdown s) = None ->
   backend (snd r) = snd (exec (backend s)) /\
   forall x, fst (exec (backend s)) = Panic x ->
     fst r = (zero, Some (recovered_error sql bindVariables x)) /\
     exists msg, recovered_error sql bindVariables x =
                 TabletErr (NewTabletError ErrorCode_UNKNOWN_ERROR msg)).
Proof.
  intros r. subst r.
  pose proof (execRequest_frame ctx sql bindVariables tgt isTx allowOnShutdown zero exec s)
    as Hframe.
  split; [exact Hframe|]. split; [by rewrite Hframe|]. split; [by rewrite Hframe|].
  split.
  - intros Hout.
    assert (~ admissible ctx tgt isTx allowOnShutdown s) as Hnot
      by (by rewrite <- startRequest_None_iff).
    destruct (execRequest_refused ctx sql bindVariables tgt isTx allowOnShutdown
                zero exec s Hnot) as [msg Hmsg].
    rewrite Hmsg. eauto.
  - intros Hin. apply startRequest_None_iff in Hin.
    rewrite (execRequest_admissible _ _ _ _ _ _ _ _ _ Hin). simpl.
    split; [done|]. intros x Hx. rewrite Hx. split; [done|].
    unfold recovered_error. eauto.
Qed.

(** ** The health view *)

(** X3. IsServing holds exactly when the state is SERVING and the lameduck
    flag is clear: no other state has the name SERVING. *)
Theorem IsServing_iff s :
  IsServing s = true <-> lameduck s = 0 /\ state s = StateServing.
Proof.
  unfold IsServing, GetState. case_bool_decide as Hl.
  - split; [done | tauto].
  - assert (lameduck s = 0) as Hz by (by destruct (decide (lameduck s = 0))).
    destruct (state s); simpl; split; (done || tauto || (by intros [_ ?])).
Qed.

(** ** Lifecycle *)

Lemma state_service sv s : state (service sv s) = state s.
Proof. done. Qed.

Lemma target_service sv s : target (service sv s) = target s.
Proof. done. Qed.

Lemma opener_keeps op s :
  state (snd (opener op s)) = state s /\ target (snd (opener op s)) = target s /\
  alsoAllow (snd (opener op s)) = alsoAllow s.
Proof. unfold opener. by destruct (run_opener op (backend s)). Qed.

(** What serveNewType, fullStart and closeAll leave of the controller. *)
Lemma serveNewType_outcome s :
  target (snd (serveNewType s)) = target s /\
  alsoAllow (snd (serveNewType s)) = alsoAllow s /\
  match fst (serveNewType s) with
  | None => state (snd (serveNewType s)) = StateServing
  | Some _ => state (snd (serveNewType s)) = state s
  end.
Proof.
  unfold serveNewType. case_bool_decide; [|done].
  pose proof (opener_keeps (txThrottler_Open (Keyspace (target s)) (Shard (target s))) s)
    as (Hs & Ht & Ha).
  by destruct (opener _ s) as [[err|] s1].
Qed.

Lemma fullStart_outcome s :
  target (snd (fullStart s)) = target s /\
  alsoAllow (snd (fullStart s)) = alsoAllow s /\
  match fst (fullStart s) with
  | None => state (snd (fullStart s)) = StateServing
  | Some _ => state (snd (fullStart s)) = state s
  end.
Proof.
  unfold fullStart.
  pose proof (opener_keeps dbconnpool_NewDBConnection s) as (Hs1 & Ht1 & Ha1).
  destruct (opener dbconnpool_NewDBConnection s) as [[err|] s1]; simpl in *; [done|].
  pose proof (opener_keeps qe_Open s1) as (Hs2 & Ht2 & Ha2).
  destruct (opener qe_Open s1) as [[err|] s2]; simpl in *;
    [repeat split; congruence|].
  pose proof (opener_keeps te_Init s2) as (Hs3 & Ht3 & Ha3).
  destruct (opener te_Init s2) as [[err|] s3]; simpl in *;
    [repeat split; congruence|].
  pose proof (serveNewType_outcome (service updateStreamList_Init s3)) as (Ht & Ha & Hs).
  destruct (serveNewType (service updateStreamList_Init s3)) as [[err|] s4];
    simpl in *; repeat split; congruence.
Qed.

Lemma closeAll_outcome s :
  state (closeAll s) = StateNotConnected /\ target (closeAll s) = target s /\
  alsoAllow (closeAll s) = alsoAllow s.
Proof. done. Qed.

Lemma gracefulStop_outcome s :
  state (gracefulStop s) = StateNotServing /\ target (gracefulStop s) = target s /\
  alsoAllow (gracefulStop s) = alsoAllow s /\
  requests (gracefulStop s) = 0 /\ txRequests (gracefulStop s) = 0.
Proof. done. Qed.


(** What SetServingType leaves as target and also-allow list, on every
    path. *)
Lemma SetServingType_target tabletType serving allow s :
  target (snd (SetServingType tabletType serving allow s)) =
    {| Keyspace := Keyspace (target s); Shard := Shard (target s);
       Target_TabletType := tabletType |} /\
  alsoAllow (snd (SetServingType tabletType serving allow s)) = allow.
Proof.
  assert (forall s0, target s0 = target (set_TabletType tabletType (set_alsoAllow allow s)) ->
            alsoAllow s0 = allow ->
            target s0 = {| Keyspace := Keyspace (target s); Shard := Shard (target s);
                           Target_TabletType := tabletType |} /\
            alsoAllow s0 = allow) as Hdone.
  { intros s0 -> ->. done. }
  unfold SetServingType, SetServingType_body, decideAction.
  rewrite state_set_alsoAllow.
  destruct (bool_decide (Target_TabletType (target (set_alsoAllow allow s)) = tabletType)
            && (serving && bool_decide (state s = StateServing))) eqn:Hshortcut.
  - apply andb_true_iff in Hshortcut as [Hsame _].
    apply bool_decide_eq_true in Hsame. simpl in *.
    split; [|done]. destruct (target s); simpl in *. by subst.
  - set (s0 := set_TabletType tabletType (set_alsoAllow allow s)).
    change (state s0) with (state s).
    destruct (state s), serving; simpl; try done;
      try (by apply Hdone);
      try (pose proof (fullStart_outcome (setState StateTransitioning s0)) as (Ht & Ha & _);
           destruct (fullStart (setState StateTransitioning s0)) as [[err|] s1];
           simpl in *; apply Hdone; done);
      try (pose proof (serveNewType_outcome (setState StateTransitioning s0)) as (Ht & Ha & _);
           destruct (serveNewType (setState StateTransitioning s0)) as [[err|] s1];
           simpl in *; apply Hdone; done).
Qed.

(** A call that was asked to serve and reports no error ends in SERVING. *)
Lemma SetServingType_serving tabletType serving allow s :
  serving = true ->
  snd (fst (SetServingType tabletType serving allow s)) = None ->
  state (snd (SetServingType tabletType serving allow s)) = StateServing.
Proof.
  intros Hserving.
  unfold SetServingType, SetServingType_body, decideAction.
  rewrite state_set_alsoAllow.
  destruct (bool_decide (Target_TabletType (target (set_alsoAllow allow s)) = tabletType)
            && (serving && bool_decide (state s = StateServing))) eqn:Hshortcut.
  - apply andb_true_iff in Hshortcut as [_ Hst].
    apply andb_true_iff in Hst as [_ Hst].
    apply bool_decide_eq_true in Hst. done.
  - set (s0 := set_TabletType tabletType (set_alsoAllow allow s)).
    change (state s0) with (state s). subst serving.
    destruct (state s); simpl; try done.
    + pose proof (fullStart_outcome (setState StateTransitioning s0)) as (_ & _ & Hout).
      by destruct (fullStart (setState StateTransitioning s0)) as [[err|] s1].
    + pose proof (serveNewType_outcome (setState StateTransitioning s0)) as (_ & _ & Hout).
      by destruct (serveNewType (setState StateTransitioning s0)) as [[err|] s1].
    + pose proof (serveNewType_outcome (setState StateTransitioning s0)) as (_ & _ & Hout).
      by destruct (serveNewType (setState StateTransitioning s0)) as [[err|] s1].
Qed.

(** X5. Every call of SetServingType leaves the requested role as the
    controller's role and the passed list as its also-allow list, and never
    touches keyspace or shard: also the call that fails in TRANSITIONING or
    SHUTTING_DOWN, and the call whose start-up fails.  When the call was
    asked to serve and reports no error, the next request for the
    controller's keyspace and shard is let in if it names the new role or a
    role of the list; a transactional one is let in exactly when the new role
    is MASTER. *)
Theorem SetServingType_records_target tabletType serving allow s :
  let s' := snd (SetServingType tabletType serving allow s) in
  Target_TabletType (target s') = tabletType /\
  Keyspace (target s') = Keyspace (target s) /\
  Shard (target s') = Shard (target s) /\
  alsoAllow s' = allow /\
  (serving = true ->
   snd (fst (SetServingType tabletType serving allow s)) = None ->
   forall ctx t,
     Keyspace t = Keyspace (target s) -> Shard t = Shard (target s) ->
     Target_TabletType t = tabletType \/ Target_TabletType t ∈ allow ->
     fst (startRequest ctx (Some t) false false s') = None /\
     (fst (startRequest ctx (Some t) true false s') = None <->
      tabletType = TabletType_MASTER)).
Proof.
  intros s'. subst s'.
  destruct (SetServingType_target tabletType serving allow s) as [Ht Ha].
  rewrite Ht, Ha. simpl. repeat split; try done.
  - apply startRequest_None_iff.
    pose proof (SetServingType_serving tabletType serving allow s H H0) as Hst.
    split; [split; [by left|] | done].
    intros t' [= <-]. unfold target_admits. rewrite Ht, Ha. simpl. done.
  - intros Hin. apply startRequest_None_iff in Hin as [[_ Htgt] _].
    destruct (Htgt t eq_refl) as (_ & _ & Hmaster & _).
    rewrite Ht in Hmaster. simpl in Hmaster. by apply Hmaster.
  - intros ->. apply startRequest_None_iff.
    pose proof (SetServingType_serving TabletType_MASTER serving allow s H H0) as Hst.
    split; [split; [by left|] | done].
    intros t' [= <-]. unfold target_admits. rewrite Ht, Ha. simpl. done.
Qed.




Lemma isMySQLReachable_probes (probe : Backend -> bool * Backend) s :
  state s = StateServing \/ state s = StateNotServing ->
  isMySQLReachable probe s =
  (fst (probe (backend s)), set_backend (snd (probe (backend s))) s).
Proof.
  unfold isMySQLReachable.
  destruct s as [st l t a rq tx b i m last]. simpl.
  intros [-> | ->]; simpl; destruct (probe b) as [reachable b1]; simpl; [|done].
  unfold set_requests, set_backend. simpl. do 2 f_equal. lia.
Qed.

Lemma isMySQLReachable_skips (probe : Backend -> bool * Backend) s :
  state s <> StateServing -> state s <> StateNotServing ->
  isMySQLReachable probe s = (true, s).
Proof. unfold isMySQLReachable. by destruct (state s). Qed.

(** X7. isMySQLReachable probes the database in SERVING and NOT_SERVING
    only, and answers true without a probe in every other state, so it
    answers false only in those two states.  Whatever the probe says, the
    controller after the call differs from the one before in the backend
    only: the reserved request is released, and the state switched to
    TRANSITIONING is back at NOT_SERVING. *)
Theorem isMySQLReachable_outcome (probe : Backend -> bool * Backend) s :
  snd (isMySQLReachable probe s) =
    set_backend (backend (snd (isMySQLReachable probe s))) s /\
  (fst (isMySQLReachable probe s) = false ->
   state s = StateServing \/ state s = StateNotServing) /\
  (state s = StateServing \/ state s = StateNotServing ->
   fst (isMySQLReachable probe s) = fst (probe (backend s)) /\
   backend (snd (isMySQLReachable probe s)) = snd (probe (backend s))) /\
  (state s <> StateServing -> state s <> StateNotServing ->
   isMySQLReachable probe s = (true, s)).
Proof.
  destruct (decide (state s = StateServing \/ state s = StateNotServing)) as [Hst|Hno].
  - rewrite (isMySQLReachable_probes probe s Hst). simpl.
    repeat split; try done; tauto.
  - rewrite (isMySQLReachable_skips probe s) by tauto. simpl.
    rewrite set_backend_same. repeat split; try done; tauto.
Qed.


(** ** Queries and transactions *)

Lemma Execute_admissible ctx tgt sql bindVariables transactionID options s :
  admissible ctx tgt false (bool_decide (transactionID <> 0)) s ->
  Execute ctx tgt sql bindVariables transactionID options s =
  (Execute_result sql bindVariables
     (fst (qre_Execute sql bindVariables transactionID options (backend s))),
   set_backend (snd (qre_Execute sql bindVariables transactionID options (backend s))) s).
Proof.
  intros Hadm. unfold Execute.
  rewrite (execRequest_admissible _ _ _ _ _ _ _ _ _ Hadm).
  unfold Execute_closure, Execute_result.
  by destruct (qre_Execute sql bindVariables transactionID options (backend s))
    as [[[result|err]|x] b].
Qed.

(** A request let in as a transactional one is let in as a plain one, with
    or without the allowance for SHUTTING_DOWN, by every controller with the
    same state, target and also-allow list. *)
Lemma admissible_weaken ctx tgt allowOnShutdown s s' :
  state s' = state s -> target s' = target s -> alsoAllow s' = alsoAllow s ->
  admissible ctx tgt true false s -> admissible ctx tgt false allowOnShutdown s'.
Proof.
  intros Hst Htg Hal [[Hstate Htgt] Hnil].
  apply (admissible_ext ctx tgt false allowOnShutdown s s' Hst Htg Hal).
  split; [split|]; auto.
  - destruct Hstate as [Hs|[Hf _]]; [by left | done].
  - intros t Ht. destruct (Htgt t Ht) as (Hk & Hsh & _ & Hrole).
    repeat split; done.
Qed.

Lemma startRequest_registers ctx tgt isTx allowOnShutdown s s1 :
  startRequest ctx tgt isTx allowOnShutdown s = (None, s1) ->
  s1 = register_request isTx s.
Proof.
  destruct (startRequest_cases ctx tgt isTx allowOnShutdown s) as [Heq|[msg Heq]];
    congruence.
Qed.

Lemma endRequest_framed isTx s s' :
  s' = set_backend (backend s') (register_request isTx s) ->
  endRequest isTx s' = set_backend (backend s') s.
Proof.
  intros Hframe.
  transitivity (endRequest isTx (set_backend (backend s') (register_request isTx s)));
    [by rewrite <- Hframe | apply end_after_register].
Qed.

(** The loop runs to its end when every query succeeds. *)
Lemma ExecuteBatch_loop_succeeds ctx tgt queries transactionID options acc s results s1 :
  Execute_all ctx tgt queries transactionID options s = Some (results, s1) ->
  ExecuteBatch_loop ctx tgt queries transactionID options acc s =
    ((acc ++ results, Done None), s1).
Proof.
  revert acc s results. induction queries as [|bound rest IH]; intros acc s results; simpl.
  - intros [= <- <-]. by rewrite app_nil_r.
  - destruct (Execute _ _ _ _ _ _ s) as [[[result|] [err|]] s'] eqn:Hq; try done.
    destruct (Execute_all _ _ rest _ _ s') as [[results' s'']|] eqn:Hrest; [|done].
    intros [= <- <-]. rewrite (IH _ _ _ Hrest). by rewrite <- app_assoc.
Qed.

(** An error that execRequest returned passes handleError unchanged when no
    bind variables are given. *)
Lemma returned_error_batch sql bindVariables r err :
  returned_error sql bindVariables r = Some err ->
  handleError "batch" ∅ err = err.
Proof.
  destruct r as [[e|]|x]; simpl; intros [= <-].
  - destruct (handleError_is_TabletErr sql bindVariables e) as [terr ->].
    apply handleError_no_bindVariables.
  - apply handleError_no_bindVariables.
Qed.

(** X22. A Begin that the transaction throttler holds back returns id 0 and
    a TRANSIENT_ERROR "Transaction throttled", with its message intact also
    in terse-errors mode, and the transaction pool is not asked: the backend
    is the one the throttler left. *)
Theorem Begin_throttled ctx tgt s b1 :
  admissible ctx tgt true false s ->
  txThrottler_Throttle (backend s) = (Done true, b1) ->
  Begin ctx tgt s =
  ((0, Some (TabletErr (NewTabletError ErrorCode_TRANSIENT_ERROR
               "Transaction throttled"))),
   set_backend b1 s).
Proof.
  intros Hadm Hthrottle. unfold Begin.
  rewrite (execRequest_admissible _ _ _ _ _ _ _ _ _ Hadm).
  unfold Begin_closure. rewrite Hthrottle. simpl.
  by rewrite handleError_no_bindVariables.
Qed.

(** X9. In SHUTTING_DOWN, Execute tells a query of a running transaction
    from a new one by the transaction id alone: with id 0 it is refused
    with QUERY_NOT_SERVED and nothing is touched, with any other id and a
    target the controller accepts the query is run, and the controller after
    the call differs in the backend only. *)
Theorem Execute_while_shutting_down ctx tgt sql bindVariables transactionID options s :
  state s = StateShuttingDown ->
  (transactionID = 0 ->
   Execute ctx tgt sql bindVariables transactionID options s =
   ((None, Some (TabletErr (NewTabletError ErrorCode_QUERY_NOT_SERVED
                   "operation not allowed in state SHUTTING_DOWN"))), s)) /\
  (transactionID <> 0 -> admissible ctx tgt false true s ->
   Execute ctx tgt sql bindVariables transactionID options s =
   (Execute_result sql bindVariables
      (fst (qre_Execute sql bindVariables transactionID options (backend s))),
    set_backend (snd (qre_Execute sql bindVariables transactionID options (backend s))) s)).
Proof.
  intros Hst. split.
  - intros ->. unfold Execute, execRequest, startRequest. rewrite Hst.
    rewrite (bool_decide_eq_false_2 (0 <> 0)) by auto. done.
  - intros Hid Hadm. apply Execute_admissible.
    by rewrite (bool_decide_eq_true_2 (transactionID <> 0)).
Qed.

(** X10. IsHealthy runs "select 1 from dual" through Execute as a
    process-local request with no target and no transaction.  Outside SERVING
    it reports QUERY_NOT_SERVED without a query; in SERVING the query always
    runs and its error, if any, is the answer, with its message never
    stripped.  The lameduck flag plays no part: a controller in lameduck mode
    answers as it would outside it. *)
Theorem IsHealthy_outcome s :
  (state s <> StateServing ->
   IsHealthy s =
   (Some (TabletErr (NewTabletError ErrorCode_QUERY_NOT_SERVED
            ("operation not allowed in state " +:+ stateName (state s)))), s)) /\
  (state s = StateServing ->
   IsHealthy s =
   (match fst (qre_Execute "select 1 from dual" ∅ 0 None (backend s)) with
    | Done (inl _) => None
    | Done (inr (TabletErr terr)) => Some (TabletErr terr)
    | Done (inr (OtherErr text)) =>
        Some (TabletErr (NewTabletError ErrorCode_UNKNOWN_ERROR text))
    | Panic x => Some (recovered_error "select 1 from dual" ∅ x)
    end,
    set_backend (snd (qre_Execute "select 1 from dual" ∅ 0 None (backend s))) s)) /\
  (forall flag, fst (IsHealthy (set_lameduck flag s)) = fst (IsHealthy s)).
Proof.
  assert (forall s0, state s0 <> StateServing ->
            IsHealthy s0 =
            (Some (TabletErr (NewTabletError ErrorCode_QUERY_NOT_SERVED
                     ("operation not allowed in state " +:+ stateName (state s0)))), s0))
    as Hout.
  { intros s0 Hst. unfold IsHealthy, Execute, execRequest, startRequest.
    rewrite (bool_decide_eq_false_2 (state s0 = StateServing)) by done.
    rewrite (bool_decide_eq_false_2 (0 <> 0)) by auto. done. }
  assert (forall s0, state s0 = StateServing ->
            IsHealthy s0 =
            (snd (Execute_result "select 1 from dual" ∅
                    (fst (qre_Execute "select 1 from dual" ∅ 0 None (backend s0)))),
             set_backend (snd (qre_Execute "select 1 from dual" ∅ 0 None (backend s0))) s0))
    as Hin.
  { intros s0 Hst. unfold IsHealthy. rewrite Execute_admissible.
    - by destruct (Execute_result _ _ _).
    - split; [split; [by left | done] | done]. }
  split; [apply Hout|]. split.
  - intros Hst. rewrite (Hin s Hst). f_equal.
    destruct (fst (qre_Execute _ _ _ _ _)) as [[result|[terr|text]]|x]; simpl; try done.
    + by rewrite handleError_no_bindVariables.
    + f_equal.
      apply (handleError_no_bindVariables _ (NewTabletError ErrorCode_UNKNOWN_ERROR text)).
  - intros flag.
    destruct (decide (state s = StateServing)) as [Hst|Hst].
    + by rewrite (Hin s Hst), (Hin (set_lameduck flag s) Hst).
    + by rewrite (Hout s Hst), (Hout (set_lameduck flag s) Hst).
Qed.

(** X11. ExecuteBatch outside a transaction of its own (asTransaction
    false), once the request is let in: when every query succeeds the results
    come back in the order of the queries; when [bound] is the first query to
    fail, the results are nil and the error is that query's.  In both cases
    the backend is the one the last Execute left: nothing is committed or
    rolled back, whatever the transaction id passed. *)
Theorem ExecuteBatch_without_transaction ctx tgt queries transactionID options s s1 :
  queries <> [] ->
  startRequest ctx tgt false (bool_decide (transactionID <> 0)) s = (None, s1) ->
  (forall results s2,
     Execute_all ctx tgt queries transactionID options s1 = Some (results, s2) ->
     ExecuteBatch ctx tgt queries false transactionID options s =
     ((results, None), set_backend (backend s2) s)) /\
  (forall pre bound post results s2 r err s3,
     queries = pre ++ bound :: post ->
     Execute_all ctx tgt pre transactionID options s1 = Some (results, s2) ->
     Execute ctx tgt (Sql bound) (BindVariables bound) transactionID options s2 =
       ((r, Some err), s3) ->
     ExecuteBatch ctx tgt queries false transactionID options s =
     (([], Some err), set_backend (backend s3) s)).
Proof.
  intros Hne Hstart.
  assert (bool_decide (length queries = 0%nat) = false) as Hlen.
  { apply bool_decide_eq_false_2. by destruct queries. }
  pose proof (startRequest_registers _ _ _ _ _ _ Hstart) as Hs1.
  split.
  - intros results s2 Hall. unfold ExecuteBatch. rewrite Hlen. simpl.
    rewrite Hstart. unfold ExecuteBatch_body, ExecuteBatch_run.
    rewrite (ExecuteBatch_loop_succeeds _ _ _ _ _ [] _ _ _ Hall). simpl.
    f_equal. apply (endRequest_framed false). rewrite <- Hs1.
    exact (Execute_all_frame _ _ _ _ _ _ _ _ Hall).
  - intros pre bound post results s2 r err s3 -> Hpre Hfail.
    unfold ExecuteBatch. rewrite Hlen. simpl.
    rewrite Hstart. unfold ExecuteBatch_body, ExecuteBatch_run.
    rewrite (ExecuteBatch_loop_fails _ _ _ _ post _ _ [] _ _ _ _ _ _ Hpre Hfail).
    simpl. f_equal.
    pose proof (Execute_frame ctx tgt (Sql bound) (BindVariables bound)
                  transactionID options s2) as Hs3.
    rewrite Hfail in Hs3. simpl in Hs3.
    pose proof (Execute_all_frame _ _ _ _ _ _ _ _ Hpre) as Hs2.
    apply (endRequest_framed false). rewrite <- Hs1. rewrite Hs3, Hs2. done.
Qed.

(** X12. ExecuteBatch as a transaction of its own, once the request is let
    in and Begin has opened transaction [txid]: when every query succeeds,
    the transaction is committed, and the call returns the results in order
    if the commit succeeds, and nil with the commit's error if it fails.
    Either way the commit is the last call made: there is no roll-back after
    a commit, failed or not. *)
Theorem ExecuteBatch_transaction_commit ctx tgt queries options s s1 txid s2 results s3 :
  queries <> [] ->
  startRequest ctx tgt false false s = (None, s1) ->
  Begin ctx tgt s1 = ((txid, None), s2) ->
  Execute_all ctx tgt queries txid options s2 = Some (results, s3) ->
  ExecuteBatch ctx tgt queries true 0 options s =
  ((match fst (txPool_Commit txid (backend s3)) with
    | Done None => results
    | _ => []
    end,
    returned_error "commit" ∅ (fst (txPool_Commit txid (backend s3)))),
   set_backend (snd (txPool_Commit txid (backend s3))) s).
Proof.
  intros Hne Hstart Hbegin Hall.
  assert (bool_decide (length queries = 0%nat) = false) as Hlen.
  { apply bool_decide_eq_false_2. by destruct queries. }
  pose proof (startRequest_registers _ _ _ _ _ _ Hstart) as Hs1.
  pose proof (Begin_frame ctx tgt s1) as Hs2. rewrite Hbegin in Hs2. simpl in Hs2.
  pose proof (Execute_all_frame _ _ _ _ _ _ _ _ Hall) as Hs3.
  assert (s3 = set_backend (backend s3) s1) as Hs31 by (by rewrite Hs3, Hs2).
  assert (admissible ctx tgt true true s3) as Hadm.
  { apply (admissible_for_conclusion ctx tgt s1 s3);
      [by rewrite Hs31 .. | by eapply Begin_succeeds_admissible]. }
  unfold ExecuteBatch. rewrite Hlen.
  rewrite (bool_decide_eq_false_2 (0 <> 0)) by auto. simpl.
  rewrite Hstart. unfold ExecuteBatch_body. rewrite Hbegin.
  unfold ExecuteBatch_run.
  rewrite (ExecuteBatch_loop_succeeds _ _ _ _ _ [] _ _ _ Hall). simpl.
  rewrite (Commit_admissible _ _ _ _ Hadm).
  set (b := snd (txPool_Commit txid (backend s3))).
  assert (endRequest false (set_backend b s3) = set_backend b s) as Hend.
  { rewrite Hs31, set_backend_twice, Hs1. apply end_after_register. }
  destruct (fst (txPool_Commit txid (backend s3))) as [[e|]|x]; simpl.
  - f_equal; [|exact Hend]. do 2 f_equal.
    exact (returned_error_batch "commit" ∅ (Done (Some e)) _ eq_refl).
  - f_equal. exact Hend.
  - f_equal; [|exact Hend]. do 2 f_equal.
    exact (returned_error_batch "commit" ∅ (Panic x) _ eq_refl).
Qed.

(** X13. BeginExecuteBatch cannot run a batch as a transaction of its own:
    it passes the id of the transaction it has just begun to ExecuteBatch,
    which refuses asTransaction together with a non-zero id.  So once Begin
    returned a non-zero id, the call with asTransaction = true returns
    BAD_INPUT together with that id for every list of queries, no query is
    run, and the transaction it began is neither committed nor rolled back:
    the controller is the one Begin left. *)
Theorem BeginExecuteBatch_asTransaction ctx tgt queries options s txid s1 :
  Begin ctx tgt s = ((txid, None), s1) ->
  txid <> 0 ->
  exists msg,
    BeginExecuteBatch ctx tgt queries true options s =
    ((([], txid), Some (TabletErr (NewTabletError ErrorCode_BAD_INPUT msg))), s1).
Proof.
  intros Hbegin Hid. unfold BeginExecuteBatch. rewrite Hbegin.
  unfold ExecuteBatch. case_bool_decide; [eauto|].
  rewrite (bool_decide_eq_true_2 (txid <> 0)) by done. simpl. eauto.
Qed.

(** X14. BeginExecute: a query that follows a successful Begin is never
    refused at admission, so it always reaches the query executor, in the
    transaction just begun; its result or error comes back with the new
    transaction id.  When the query fails the transaction is not rolled
    back: the backend is the one the query left. *)
Theorem BeginExecute_runs_query ctx tgt sql bindVariables options s txid s1 :
  Begin ctx tgt s = ((txid, None), s1) ->
  BeginExecute ctx tgt sql bindVariables options s =
  (let r := Execute_result sql bindVariables
              (fst (qre_Execute sql bindVariables txid options (backend s1))) in
   ((fst r, txid), snd r),
   set_backend (snd (qre_Execute sql bindVariables txid options (backend s1))) s).
Proof.
  intros Hbegin.
  pose proof (Begin_frame ctx tgt s) as Hs1. rewrite Hbegin in Hs1. simpl in Hs1.
  assert (admissible ctx tgt false (bool_decide (txid <> 0)) s1) as Hadm.
  { apply (admissible_weaken ctx tgt _ s s1);
      [by rewrite Hs1 .. | by eapply Begin_succeeds_admissible]. }
  unfold BeginExecute. rewrite Hbegin, (Execute_admissible _ _ _ _ _ _ _ Hadm).
  destruct (Execute_result _ _ _) as [result err]. simpl.
  by rewrite Hs1 at 2.
Qed.

(** X15. execDML, which MessageAck, PostponeMessages and PurgeMessages run,
    once the request is let in.  An error of the query generator is returned
    as BAD_INPUT before any transaction is begun.  When the generated query
    fails in the transaction [txid] Begin opened, count 0 and the query's
    error are returned and the last call made is the roll-back of [txid].
    When it succeeds the transaction is committed: the count is the number of
    rows affected if the commit succeeds, and 0 with the commit's error if it
    fails, and nothing is rolled back. *)
Theorem execDML_outcome ctx tgt (RowsAffected : Result -> Z)
    (queryGenerator : Backend -> outcome ((string * BindVars) + error) * Backend) s s1 :
  startRequest ctx tgt false false s = (None, s1) ->
  (forall err b,
     queryGenerator (backend s) = (Done (inr err), b) ->
     execDML ctx tgt RowsAffected queryGenerator s =
     ((0, Some (TabletErr (NewTabletError ErrorCode_BAD_INPUT (error_text err)))),
      set_backend b s)) /\
  (forall sql bv b txid s2 r err s3,
     queryGenerator (backend s) = (Done (inl (sql, bv)), b) ->
     Begin ctx tgt (set_backend b s1) = ((txid, None), s2) ->
     txid <> 0 ->
     Execute ctx tgt sql bv txid None s2 = ((r, Some err), s3) ->
     execDML ctx tgt RowsAffected queryGenerator s =
     ((0, Some err), set_backend (snd (txPool_Rollback txid (backend s3))) s)) /\
  (forall sql bv b txid s2 result s3,
     queryGenerator (backend s) = (Done (inl (sql, bv)), b) ->
     Begin ctx tgt (set_backend b s1) = ((txid, None), s2) ->
     Execute ctx tgt sql bv txid None s2 = ((Some result, None), s3) ->
     execDML ctx tgt RowsAffected queryGenerator s =
     ((match fst (txPool_Commit txid (backend s3)) with
       | Done None => wrap_int (RowsAffected result)
       | _ => 0
       end,
       returned_error "commit" ∅ (fst (txPool_Commit txid (backend s3)))),
      set_backend (snd (txPool_Commit txid (backend s3))) s)).
Proof.
  intros Hstart.
  pose proof (startRequest_registers _ _ _ _ _ _ Hstart) as Hs1.
  assert (backend s1 = backend s) as Hb by (by rewrite Hs1).
  assert (forall sql bv b txid s2 r e s3,
            Begin ctx tgt (set_backend b s1) = ((txid, None), s2) ->
            Execute ctx tgt sql bv txid None s2 = ((r, e), s3) ->
            admissible ctx tgt true true s3 /\
            forall b', endRequest false (set_backend b' s3) = set_backend b' s) as Hrun.
  { intros sql bv b txid s2 r e s3 Hbegin Hexec.
    pose proof (Begin_frame ctx tgt (set_backend b s1)) as Hs2.
    rewrite Hbegin in Hs2. simpl in Hs2.
    pose proof (Execute_frame ctx tgt sql bv txid None s2) as Hs3.
    rewrite Hexec in Hs3. simpl in Hs3.
    assert (s3 = set_backend (backend s3) s1) as Hs31 by (by rewrite Hs3, Hs2).
    split.
    - apply (admissible_for_conclusion ctx tgt (set_backend b s1) s3);
        [by rewrite Hs31 .. | by eapply Begin_succeeds_admissible].
    - intros b'. rewrite Hs31, set_backend_twice, Hs1. apply end_after_register. }
  split; [|split].
  - intros err b Hgen. unfold execDML, execDML_body.
    rewrite Hstart, Hb, Hgen. simpl. f_equal.
    rewrite Hs1. exact (end_after_register false b s).
  - intros sql bv b txid s2 r err s3 Hgen Hbegin Hid Hexec.
    destruct (Hrun _ _ _ _ _ _ _ _ Hbegin Hexec) as [Hadm Hend].
    unfold execDML, execDML_body.
    rewrite Hstart, Hb, Hgen, Hbegin, Hexec.
    rewrite (bool_decide_eq_true_2 (txid <> 0)) by done.
    rewrite (Rollback_admissible _ _ _ _ Hadm). simpl. f_equal. apply Hend.
  - intros sql bv b txid s2 result s3 Hgen Hbegin Hexec.
    destruct (Hrun _ _ _ _ _ _ _ _ Hbegin Hexec) as [Hadm Hend].
    unfold execDML, execDML_body.
    rewrite Hstart, Hb, Hgen, Hbegin, Hexec.
    rewrite (Commit_admissible _ _ _ _ Hadm).
    destruct (fst (txPool_Commit txid (backend s3))) as [[e|]|x]; simpl;
      f_equal; apply Hend.
Qed.

(** ** SplitQuery *)

(** X16. The two panics of the split computation cannot be reached through
    SplitQuery: when validateSplitQueryParameters has let the parameters
    pass, createSplitParams calls one of the two constructors of the split
    parameters, with a row or split count that is positive, and
    createSplitQueryAlgorithmObject calls one of the two constructors of the
    algorithm.  A panic during a split is then a collaborator's. *)
Theorem split_panics_unreachable t query splitColumns splitCount
    numRowsPerQueryPart algorithm :
  validateSplitQueryParameters (Some t) query splitColumns splitCount
    numRowsPerQueryPart algorithm = Done None ->
  (forall b,
     createSplitParams query splitColumns splitCount numRowsPerQueryPart b =
     convert_split_error
       (if bool_decide (splitCount = 0)
        then NewSplitParamsGivenNumRowsPerQueryPart query splitColumns
               numRowsPerQueryPart b
        else NewSplitParamsGivenSplitCount query splitColumns splitCount b)) /\
  (forall splitParams b,
     createSplitQueryAlgorithmObject algorithm splitParams b =
     if bool_decide (algorithm = SplitQueryRequest_FULL_SCAN)
     then NewFullScanAlgorithm splitParams b
     else NewEqualSplitsAlgorithm splitParams b) /\
  (if bool_decide (splitCount = 0) then 0 < numRowsPerQueryPart else 0 < splitCount).
Proof.
  intros Hpass.
  destruct (validateSplitQueryParameters_cases t query splitColumns splitCount
              numRowsPerQueryPart algorithm) as [[Hvalid _]|[_ [msg Hmsg]]];
    [|congruence].
  destruct Hvalid as (_ & Hrows & Hcount & Hone & Halg).
  split; [|split].
  - intros b. unfold createSplitParams.
    destruct Hone as [[Hsc Hn]|[Hsc Hn]].
    + rewrite (bool_decide_eq_true_2 (numRowsPerQueryPart <> 0)) by done.
      by rewrite (bool_decide_eq_true_2 (splitCount = 0)).
    + rewrite (bool_decide_eq_false_2 (numRowsPerQueryPart <> 0)) by auto.
      rewrite (bool_decide_eq_true_2 (numRowsPerQueryPart = 0)) by done.
      rewrite (bool_decide_eq_true_2 (splitCount <> 0)) by done.
      by rewrite (bool_decide_eq_false_2 (splitCount = 0)).
  - intros splitParams b. unfold createSplitQueryAlgorithmObject.
    case_bool_decide as Hfull; [done|].
    destruct Halg as [Heq|Heq]; [|done].
    by rewrite (bool_decide_eq_true_2 (algorithm = SplitQueryRequest_EQUAL_SPLITS)).
  - case_bool_decide; lia.
Qed.

(** ** Stream health *)

Lemma select_send_default_bounded {A : Type} (c : Chan A) (v : A) :
  (length (chan_buf c) <= chan_cap c)%nat ->
  chan_cap (select_send_default c v) = chan_cap c /\
  (length (chan_buf (select_send_default c v)) <= chan_cap c)%nat.
Proof.
  intros Hb. unfold select_send_default, chan_full.
  destruct (Nat.ltb_spec (length (chan_buf c)) (chan_cap c)); simpl; [|done].
  rewrite length_app. simpl. split; [done | lia].
Qed.

(** Sends to a channel nobody reads from fill it up and are then dropped. *)
Lemma sends_without_receiver {A : Type} (l : list A) (c : Chan A) :
  (length (chan_buf c) <= chan_cap c)%nat ->
  foldl select_send_default c l =
  {| chan_cap := chan_cap c; chan_buf := take (chan_cap c) (chan_buf c ++ l) |}.
Proof.
  revert c. induction l as [|v l IH]; intros c Hb; simpl.
  - rewrite app_nil_r, take_ge by done. by destruct c.
  - destruct (select_send_default_bounded c v Hb) as [Hcap Hlen].
    rewrite IH by (by rewrite Hcap). rewrite Hcap. f_equal.
    unfold select_send_default, chan_full.
    destruct (Nat.ltb_spec (length (chan_buf c)) (chan_cap c)); simpl.
    + by rewrite <- app_assoc.
    + assert (chan_cap c = length (chan_buf c)) as Hfull by lia.
      by rewrite !take_app_length'.
Qed.

Lemma BroadcastHealth_all_lookup updates s id :
  streamHealthMap (BroadcastHealth_all updates s) !! id =
  (fun c => foldl select_send_default c
              (map (fun u => health_snapshot u.1 u.2 s) updates))
    <$> streamHealthMap s !! id.
Proof.
  revert s. induction updates as [|[terTimestamp stats] rest IH]; intros s; simpl.
  - by destruct (streamHealthMap s !! id).
  - rewrite IH. simpl. rewrite broadcast_loop_lookup.
    by destruct (streamHealthMap s !! id).
Qed.

(** X17. Every subscriber channel has capacity 10 and never holds more than
    10 snapshots: streamHealthRegister, streamHealthUnregister and
    BroadcastHealth all keep it so, starting from the controller without
    subscribers. *)
Theorem channels_bounded_preserved s :
  channels_bounded s ->
  channels_bounded (snd (streamHealthRegister s)) /\
  (forall id, channels_bounded (streamHealthUnregister id s)) /\
  (forall terTimestamp stats, channels_bounded (BroadcastHealth terTimestamp stats s)).
Proof.
  intros Hb. split; [|split].
  - intros id c. simpl. rewrite lookup_insert_Some.
    intros [[_ <-]|[_ Hc]]; [simpl; split; [done | lia] | by apply (Hb id)].
  - intros id0 id c. simpl. rewrite lookup_delete_Some.
    intros [_ Hc]. by apply (Hb id).
  - intros terTimestamp stats id c. simpl. rewrite broadcast_loop_lookup.
    destruct (streamHealthMap s !! id) as [c0|] eqn:Hc0; [|done].
    simpl. intros [= <-]. destruct (Hb id c0 Hc0) as [Hcap Hlen].
    destruct (select_send_default_bounded c0 (health_snapshot terTimestamp stats s) Hlen)
      as [Hcap' Hlen'].
    rewrite Hcap'. split; [done | exact Hlen'].
Qed.

(** X18. A subscriber gets an id no other subscriber holds.  As long as the
    index has not reached the largest int, streamHealthRegister takes the
    current index as the id, maps it to an empty channel of capacity 10,
    leaves every other subscriber's channel alone and keeps all ids below the
    next index; streamHealthUnregister of that id gives back the map of
    subscribers there was before. *)
Theorem streamHealthRegister_fresh s :
  ids_fresh s ->
  - 2 ^ 63 <= streamHealthIndex s < 2 ^ 63 - 1 ->
  let r := streamHealthRegister s in
  let id := fst (fst r) in
  streamHealthMap s !! id = None /\
  streamHealthMap (snd r) !! id = Some (make_chan 10) /\
  (forall other, other <> id ->
     streamHealthMap (snd r) !! other = streamHealthMap s !! other) /\
  ids_fresh (snd r) /\
  streamHealthMap (streamHealthUnregister id (snd r)) = streamHealthMap s.
Proof.
  intros Hfresh Hrange r id. subst r id. simpl.
  assert (streamHealthMap s !! streamHealthIndex s = None) as Hnone.
  { destruct (streamHealthMap s !! streamHealthIndex s) as [c|] eqn:Hc; [|done].
    apply Hfresh in Hc. lia. }
  assert (wrap_int (streamHealthIndex s + 1) = streamHealthIndex s + 1) as Hwrap.
  { unfold wrap_int. rewrite Z.mod_small; lia. }
  split; [done|]. split; [by rewrite lookup_insert_eq|]. split; [|split].
  - intros other Hother. by rewrite lookup_insert_ne.
  - intros id c. simpl. rewrite Hwrap, lookup_insert_Some.
    intros [[<- _]|[_ Hc]]; [lia | apply Hfresh in Hc; lia].
  - by apply delete_insert_id.
Qed.

(** X19. A subscriber that stops reading loses the newest snapshots, not the
    oldest: after any run of broadcasts its channel holds what it held before
    followed by the snapshots of the run in order, cut off at the capacity.
    The snapshots carry the target and the serving flag of the controller,
    which no broadcast changes. *)
Theorem BroadcastHealth_all_slow_subscriber updates s id c :
  streamHealthMap s !! id = Some c ->
  (length (chan_buf c) <= chan_cap c)%nat ->
  streamHealthMap (BroadcastHealth_all updates s) !! id =
  Some {| chan_cap := chan_cap c;
          chan_buf := take (chan_cap c)
                        (chan_buf c ++
                         map (fun u => health_snapshot u.1 u.2 s) updates) |}.
Proof.
  intros Hc Hlen. rewrite BroadcastHealth_all_lookup, Hc. simpl.
  by rewrite sends_without_receiver.
Qed.

(** ** Errors *)

(** X20. handleError returns a TabletError that keeps the error code, the
    MySQL error number and the SQL state of the error it was given (of the
    UNKNOWN_ERROR it wraps any other error in), and handling the returned
    error a second time, for the same query, changes nothing. *)
Theorem handleError_idempotent sql bindVariables err :
  let terr :=
    match err with
    | TabletErr t => t
    | OtherErr text => NewTabletError ErrorCode_UNKNOWN_ERROR text
    end in
  exists out,
    handleError sql bindVariables err = TabletErr out /\
    SQLError out = SQLError terr /\ SQLState out = SQLState terr /\
    TE_ErrorCode out = TE_ErrorCode terr /\
    handleError sql bindVariables (TabletErr out) = TabletErr out.
Proof.
  intros terr.
  assert (handleError sql bindVariables err = handleError sql bindVariables (TabletErr terr))
    as -> by (by destruct err).
  clearbody terr. clear err. unfold handleError.
  destruct (TerseErrors && bool_decide (SQLError terr <> 0)
            && bool_decide (size bindVariables <> 0%nat)) eqn:Hstrip;
    [destruct (bool_decide (SQLError terr = 1227)
               && bool_decide (Message terr = failover_message)) eqn:Hfail|].
  - exists terr. by rewrite Hstrip, Hfail.
  - eexists. split; [reflexivity|]. simpl. rewrite Hstrip.
    repeat split.
    (* the stripped message starts with "(errno", the failover message does not *)
    by rewrite andb_false_r.
  - exists terr. by rewrite Hstrip.
Qed.

(** ** Start-up *)

(** X21. StartService starts a controller that is NOT_CONNECTED and no
    other: in any other state it returns the UNKNOWN_ERROR of InitDBConfig
    and changes nothing, lameduck mode included.  From NOT_CONNECTED it
    records the target it was given, empties the also-allow list and leaves
    lameduck mode, and ends in SERVING, or, when start-up fails, in
    NOT_CONNECTED with the error. *)
Theorem StartService_outcome (store : Backend -> Backend) (t : Target) s :
  (state s <> StateNotConnected ->
   StartService store t s =
   (Some (TabletErr (NewTabletError ErrorCode_UNKNOWN_ERROR
            ("InitDBConfig failed, current state: " +:+ stateName (state s)))), s)) /\
  (state s = StateNotConnected ->
   let r := StartService store t s in
   target (snd r) = t /\ alsoAllow (snd r) = [] /\ lameduck (snd r) = 0 /\
   match fst r with
   | None => state (snd r) = StateServing
   | Some _ => state (snd r) = StateNotConnected
   end).
Proof.
  split.
  - intros Hst. unfold StartService, InitDBConfig.
    by rewrite (bool_decide_eq_true_2 (state s <> StateNotConnected)).
  - intros Hst r. subst r. unfold StartService, InitDBConfig.
    rewrite (bool_decide_eq_false_2 (state s <> StateNotConnected)) by auto.
    set (s1 := set_backend (store (backend s)) (set_target t s)).
    destruct (SetServingType_target (Target_TabletType t) true [] s1) as [Ht Ha].
    assert (lameduck (snd (SetServingType (Target_TabletType t) true [] s1)) = 0) as Hl.
    { unfold SetServingType. by destruct (SetServingType_body _ _ _ _). }
    assert (match snd (fst (SetServingType (Target_TabletType t) true [] s1)) with
            | None => state (snd (SetServingType (Target_TabletType t) true [] s1))
                      = StateServing
            | Some _ => state (snd (SetServingType (Target_TabletType t) true [] s1))
                        = StateNotConnected
            end) as Hs.
    { destruct (snd (fst (SetServingType (Target_TabletType t) true [] s1))) eqn:Herr;
        [|by apply SetServingType_serving].
      revert Herr. unfold SetServingType, SetServingType_body, decideAction.
      rewrite state_set_alsoAllow.
      simpl. rewrite !Hst. simpl. rewrite ?andb_false_r. simpl.
      match goal with |- context [fullStart ?x] =>
        destruct (fullStart x) as [[err|] s2] end; simpl; done. }
    destruct (SetServingType (Target_TabletType t) true [] s1) as [[changed err] s2].
    simpl in *. rewrite Ht. by destruct t.
Qed.

End MoreProperties.

(** * The theorems at concrete inputs

    The controller is run against the recording collaborators. *)

Section Instances.

Import Recorder.

Local Abbreviation plain := (collaborators false).
Local Abbreviation terse := (collaborators true).

(** C1, as stated, fails: in SERVING, a request with a nil target from a
    context that is not process-local meets every stated condition (there is
    no target to check) and is refused with "No target". *)
Lemma startRequest_nil_target_counterexample :
  let s := server false StateServing TabletType_MASTER in
  admission_as_stated None false false s /\
  startRequest remote None false false s =
    (Some (TabletErr (NewTabletError ErrorCode_QUERY_NOT_SERVED "No target")), s).
Proof.
  intros s. split; [|reflexivity].
  split; [by left | intros t Ht; discriminate Ht].
Defined.

(** startRequest_admission on a transactional request for the served
    MASTER target: it is let in and both counters go from 0 to 1. *)
Lemma startRequest_admission_witness :
  let s := server false StateServing TabletType_MASTER in
  admissible remote (to TabletType_MASTER) true false s /\
  fst (startRequest remote (to TabletType_MASTER) true false s) = None /\
  requests (snd (startRequest remote (to TabletType_MASTER) true false s)) = 1 /\
  txRequests (snd (startRequest remote (to TabletType_MASTER) true false s)) = 1.
Proof.
  intros s.
  pose proof (startRequest_admission remote (to TabletType_MASTER) true false s)
    as (Hiff & Hin & _).
  assert (admissible remote (to TabletType_MASTER) true false s) as Hadm
    by (apply Hiff; reflexivity).
  destruct (Hin Hadm) as (Hsnd & Hreq & Htx).
  split; [exact Hadm|]. split; [reflexivity|].
  rewrite Hsnd, Hreq, Htx. split; reflexivity.
Defined.

(** lameduck_changes_health_only on a SERVING controller in lameduck mode:
    the health view says NOT_SERVING while a request is still let in. *)
Lemma lameduck_changes_health_only_witness :
  let s := EnterLameduck (server false StateServing TabletType_MASTER) in
  lameduck s <> 0 /\ GetState s = "NOT_SERVING" /\ IsServing s = false /\
  fst (startRequest remote (to TabletType_MASTER) false false s) = None.
Proof.
  intros s.
  assert (lameduck s <> 0) as Hl by (vm_compute; discriminate).
  destruct (proj1 (@lameduck_changes_health_only plain) s Hl) as [Hstate Hserving].
  split; [exact Hl|]. split; [exact Hstate|]. split; [exact Hserving|].
  reflexivity.
Defined.

(** shutting_down_refuses_Begin_only on a draining MASTER: Begin reaches
    nothing, Commit of transaction 5 reaches the pool. *)
Lemma shutting_down_refuses_Begin_only_witness :
  let s := server false StateShuttingDown TabletType_MASTER in
  state s = StateShuttingDown /\
  (exists msg, Begin remote (to TabletType_MASTER) s =
     ((0, Some (TabletErr (NewTabletError ErrorCode_QUERY_NOT_SERVED msg))), s)) /\
  Commit remote (to TabletType_MASTER) 5 s = (None, @set_backend plain [EvCommit 5] s) /\
  Rollback remote (to TabletType_MASTER) 5 s = (None, @set_backend plain [EvRollback 5] s).
Proof.
  intros s.
  destruct (shutting_down_refuses_Begin_only remote (to TabletType_MASTER) 5 s eq_refl)
    as [Hbegin Hconclude].
  split; [reflexivity|]. split; [exact Hbegin|].
  destruct Hconclude as (_ & Hcommit & Hrollback).
  - intros t [= <-]. repeat split; by left.
  - discriminate.
  - split; [exact Hcommit | exact Hrollback].
Defined.



(** SetServingType_in_transient_state on a draining controller. *)
Lemma SetServingType_in_transient_state_witness :
  let s := server false StateShuttingDown TabletType_MASTER in
  (state s = StateTransitioning \/ state s = StateShuttingDown) /\
  (exists msg, fst (SetServingType TabletType_REPLICA true [] s) =
     (false, Some (TabletErr (NewTabletError ErrorCode_INTERNAL_ERROR msg)))) /\
  state (snd (SetServingType TabletType_REPLICA true [] s)) = StateShuttingDown.
Proof.
  intros s.
  assert (state s = StateTransitioning \/ state s = StateShuttingDown) as Hst
    by (right; reflexivity).
  split; [exact Hst|].
  exact (SetServingType_in_transient_state TabletType_REPLICA true [] s Hst).
Defined.

(** SetServingType_already_serving on a serving MASTER asked to serve as
    MASTER, also allowing REPLICA. *)
Lemma SetServingType_already_serving_witness :
  let s := server false StateServing TabletType_MASTER in
  fst (decideAction TabletType_MASTER true [TabletType_REPLICA] s) = (actionNone, None) /\
  SetServingType TabletType_MASTER true [TabletType_REPLICA] s =
    ((false, None), ExitLameduck (set_alsoAllow [TabletType_REPLICA] s)) /\
  state (snd (SetServingType TabletType_MASTER true [TabletType_REPLICA] s)) = StateServing.
Proof.
  intros s.
  exact (SetServingType_already_serving TabletType_MASTER [TabletType_REPLICA] s
           eq_refl eq_refl).
Defined.

(** ExecuteBatch_errors on a batch of three whose second query fails: the
    implicit transaction 1 is begun, the first two queries run in it, and it
    is rolled back; the duplicate-key error is returned. *)
Lemma ExecuteBatch_errors_witness :
  let s := server false StateServing TabletType_MASTER in
  ExecuteBatch remote (to TabletType_MASTER)
    ([query "a"] ++ query "fail" :: [query "b"]) true 0 None s =
  (([], Some (TabletErr duplicate_key)),
   @set_backend plain
     [EvBegin 1; EvExecute "a" 1; EvExecute "fail" 1; EvRollback 1] s).
Proof.
  intros s.
  set (tgt := to TabletType_MASTER).
  set (s1 := snd (startRequest remote tgt false false s)).
  set (s2 := snd (Begin remote tgt s1)).
  set (s3 := snd (Execute remote tgt "a" ∅ 1 None s2)).
  set (s4 := snd (Execute remote tgt "fail" ∅ 1 None s3)).
  assert (1 <> 0) as Hid by lia.
  exact (proj2 (proj2 (@ExecuteBatch_errors plain))
           remote tgt [query "a"] (query "fail") [query "b"] None
           s s1 1 s2 ["a"] s3 None (TabletErr duplicate_key) s4
           eq_refl eq_refl Hid eq_refl eq_refl).
Defined.

(** C7, as stated, fails: a SplitQuery whose target role is REPLICA, sent
    to a serving RDONLY controller, is refused at admission with
    QUERY_NOT_SERVED, not with BAD_INPUT. *)
Lemma SplitQuery_target_role_counterexample :
  let s := server false StateServing TabletType_RDONLY in
  let t := {| Keyspace := "ks"; Shard := "0"; Target_TabletType := TabletType_REPLICA |} in
  split_parameters_refused t 1 0 SplitQueryRequest_EQUAL_SPLITS /\
  SplitQuery remote (Some t) (query "select id from t") [] 1 0
    SplitQueryRequest_EQUAL_SPLITS s =
  (([], Some (TabletErr (NewTabletError ErrorCode_QUERY_NOT_SERVED
                "Invalid tablet type: REPLICA, want: RDONLY or []"))), s).
Proof.
  intros s t. split; [|reflexivity].
  left. discriminate.
Defined.

(** SplitQuery_validation on a request let in by a serving MASTER
    controller: the role check of the validation answers BAD_INPUT and the
    backend has received no call. *)
Lemma SplitQuery_validation_witness :
  let s := server false StateServing TabletType_MASTER in
  let t := {| Keyspace := "ks"; Shard := "0"; Target_TabletType := TabletType_MASTER |} in
  admissible remote (Some t) false false s /\
  (exists msg,
     SplitQuery remote (Some t) (query "select id from t") [] 1 0
       SplitQueryRequest_EQUAL_SPLITS s =
     (([], Some (TabletErr (NewTabletError ErrorCode_BAD_INPUT msg))), s)) /\
  backend (snd (SplitQuery remote (Some t) (query "select id from t") [] 1 0
                  SplitQueryRequest_EQUAL_SPLITS s)) = [].
Proof.
  intros s t.
  assert (admissible remote (Some t) false false s) as Hadm
    by (apply startRequest_None_iff; reflexivity).
  split; [exact Hadm|]. split; [|reflexivity].
  apply (proj1 (SplitQuery_validation remote t (query "select id from t") [] 1 0
                  SplitQueryRequest_EQUAL_SPLITS s Hadm)).
  left. discriminate.
Defined.

(** BroadcastHealth_fan_out with two subscribers, number 0 with an empty
    channel and number 1 with ten snapshots queued: the first gets the new
    snapshot, the second keeps its ten. *)
Lemma BroadcastHealth_fan_out_witness :
  let old := {| SHR_Target := {| Keyspace := "ks"; Shard := "0";
                                 Target_TabletType := TabletType_MASTER |};
                Serving := false; TabletExternallyReparentedTimestamp := 0;
                SHR_RealtimeStats := None |} in
  let slow := {| chan_cap := 10; chan_buf := replicate 10 old |} in
  let s := @mkTabletServer plain StateServing 0
             {| Keyspace := "ks"; Shard := "0"; Target_TabletType := TabletType_MASTER |}
             [] 0 0 [] 2 (<[0 := make_chan 10]> (<[1 := slow]> ∅)) (Some old) in
  let shr := health_snapshot 7 None s in
  Serving shr = true /\
  streamHealthMap (BroadcastHealth 7 None s) !! 0 =
    Some {| chan_cap := 10; chan_buf := [shr] |} /\
  streamHealthMap (BroadcastHealth 7 None s) !! 1 = Some slow /\
  lastStreamHealthResponse (BroadcastHealth 7 None s) = Some shr.
Proof.
  intros old slow s shr.
  destruct (BroadcastHealth_fan_out 7 None s) as (Hroom & Hfull & _ & Hlast & _).
  split; [reflexivity|]. split; [|split].
  - apply (Hroom 0 (make_chan 10)); [reflexivity | simpl; lia].
  - apply (Hfull 1 slow); [reflexivity | simpl; lia].
  - exact Hlast.
Defined.

(** A few runs of the controller. *)

Example ExecuteBatch_commits :
  ExecuteBatch remote (to TabletType_MASTER) [query "a"; query "b"] true 0 None
    (server false StateServing TabletType_MASTER) =
  ((["a"; "b"], None),
   @set_backend plain [EvBegin 1; EvExecute "a" 1; EvExecute "b" 1; EvCommit 1]
     (server false StateServing TabletType_MASTER)).
Proof. reflexivity. Qed.

Example SplitQuery_nil_target_panics :
  exists msg,
    fst (SplitQuery localContext None (query "select id from t") [] 1 0
           SplitQueryRequest_EQUAL_SPLITS (server false StateServing TabletType_RDONLY)) =
    ([], Some (TabletErr (NewTabletError ErrorCode_UNKNOWN_ERROR msg))).
Proof. eexists. reflexivity. Qed.

Example SplitQuery_runs :
  SplitQuery remote (to TabletType_RDONLY) (query "select id from t") [] 1 0
    SplitQueryRequest_EQUAL_SPLITS (server false StateServing TabletType_RDONLY) =
  ((["select id from t"], None),
   @set_backend plain
     [EvSplitParams; EvGetConn; EvAlgorithm SplitQueryRequest_EQUAL_SPLITS; EvSplit; EvDone]
     (server false StateServing TabletType_RDONLY)).
Proof. reflexivity. Qed.

Example role_change_drains :
  SetServingType TabletType_REPLICA true []
    (EnterLameduck (server false StateServing TabletType_MASTER)) =
  ((true, None),
   @set_backend plain
     [EvService messager_Close; EvService (te_Close true); EvService watcher_Open;
      EvService txThrottler_Close]
     (server false StateServing TabletType_REPLICA)).
Proof. reflexivity. Qed.

Example start_up_failure_closes_all :
  let s := @mkTabletServer plain StateNotConnected 1
             {| Keyspace := "down"; Shard := "0"; Target_TabletType := TabletType_MASTER |}
             [] 0 0 [] 0 ∅ None in
  fst (SetServingType TabletType_MASTER true [] s) =
    (true, Some (OtherErr "topology is down")) /\
  state (snd (SetServingType TabletType_MASTER true [] s)) = StateNotConnected /\
  lameduck (snd (SetServingType TabletType_MASTER true [] s)) = 0.
Proof. repeat split. Qed.

Example subscribe_then_broadcast :
  let s := server false StateServing TabletType_MASTER in
  let s1 := snd (streamHealthRegister s) in
  streamHealthMap (BroadcastHealth 7 None s1) !! 0 =
    Some {| chan_cap := 10; chan_buf := [health_snapshot 7 None s1] |}.
Proof. reflexivity. Qed.

End Instances.

(** * The further properties at concrete inputs *)

Section MoreInstances.

Import Recorder.

Local Abbreviation plain := (collaborators false).

(** A transactional request to a serving MASTER, started and ended. *)
Lemma startRequest_endRequest_round_trip_witness :
  let s := server false StateServing TabletType_MASTER in
  fst (startRequest remote (to TabletType_MASTER) true false s) = None /\
  endRequest true (snd (startRequest remote (to TabletType_MASTER) true false s)) = s.
Proof.
  intros s. split; [reflexivity|].
  exact (@startRequest_endRequest_round_trip plain remote (to TabletType_MASTER)
           true false s eq_refl).
Defined.


(** A throttled Begin on a serving MASTER. *)
Lemma Begin_throttled_witness :
  Begin remote (to TabletType_MASTER) Busy.master =
  ((0, Some (TabletErr (NewTabletError ErrorCode_TRANSIENT_ERROR
               "Transaction throttled"))),
   Busy.master).
Proof.
  assert (@admissible Busy.collaborators remote (to TabletType_MASTER) true false
            Busy.master) as Hadm.
  { split; [split; [by left|] | done].
    intros t [= <-]. repeat split. by left. }
  exact (@Begin_throttled Busy.collaborators remote (to TabletType_MASTER)
           Busy.master [] Hadm eq_refl).
Defined.

(** A controller that is SHUTTING_DOWN: a query of transaction 5 runs. *)
Lemma Execute_while_shutting_down_witness :
  let s := server false StateShuttingDown TabletType_MASTER in
  state s = StateShuttingDown /\
  Execute remote (to TabletType_MASTER) "select 1" ∅ 0 None s =
    ((None, Some (TabletErr (NewTabletError ErrorCode_QUERY_NOT_SERVED
                    "operation not allowed in state SHUTTING_DOWN"))), s) /\
  Execute remote (to TabletType_MASTER) "select 1" ∅ 5 None s =
    ((Some "select 1", None), @set_backend plain [EvExecute "select 1" 5] s).
Proof.
  intros s.
  assert (@admissible plain remote (to TabletType_MASTER) false true s) as Hadm.
  { split; [split; [by right|] | done].
    intros t [= <-]. repeat split. by left. }
  assert (5 <> 0) as Hid by lia.
  split; [reflexivity|]. split.
  - exact (proj1 (@Execute_while_shutting_down plain remote (to TabletType_MASTER)
                    "select 1" ∅ 0 None s eq_refl) eq_refl).
  - exact (proj2 (@Execute_while_shutting_down plain remote (to TabletType_MASTER)
                    "select 1" ∅ 5 None s eq_refl) Hid Hadm).
Defined.

(** A batch of two queries inside transaction 7, the second one failing. *)
Lemma ExecuteBatch_without_transaction_witness :
  let s := server false StateServing TabletType_MASTER in
  ExecuteBatch remote (to TabletType_MASTER) [query "a"; query "b"] false 7 None s =
    ((["a"; "b"], None), @set_backend plain [EvExecute "a" 7; EvExecute "b" 7] s) /\
  ExecuteBatch remote (to TabletType_MASTER) [query "a"; query "fail"] false 7 None s =
    (([], Some (TabletErr duplicate_key)),
     @set_backend plain [EvExecute "a" 7; EvExecute "fail" 7] s).
Proof.
  intros s.
  set (tgt := to TabletType_MASTER).
  set (s1 := snd (startRequest remote tgt false true s)).
  set (s2 := snd (Execute remote tgt "a" ∅ 7 None s1)).
  set (s3 := snd (Execute remote tgt "b" ∅ 7 None s2)).
  set (s3' := snd (Execute remote tgt "fail" ∅ 7 None s2)).
  assert ([query "a"; query "b"] <> []) as Hne by discriminate.
  assert ([query "a"; query "fail"] <> []) as Hne' by discriminate.
  split.
  - exact (proj1 (@ExecuteBatch_without_transaction plain remote tgt
                    [query "a"; query "b"] 7 None s s1 Hne eq_refl)
             ["a"; "b"] s3 eq_refl).
  - exact (proj2 (@ExecuteBatch_without_transaction plain remote tgt
                    [query "a"; query "fail"] 7 None s s1 Hne' eq_refl)
             [query "a"] (query "fail") [] ["a"] s2 None (TabletErr duplicate_key) s3'
             eq_refl eq_refl eq_refl).
Defined.

(** A batch of two queries run as a transaction of its own. *)
Lemma ExecuteBatch_transaction_commit_witness :
  let s := server false StateServing TabletType_MASTER in
  ExecuteBatch remote (to TabletType_MASTER) [query "a"; query "b"] true 0 None s =
    ((["a"; "b"], None),
     @set_backend plain [EvBegin 1; EvExecute "a" 1; EvExecute "b" 1; EvCommit 1] s).
Proof.
  intros s.
  set (tgt := to TabletType_MASTER).
  set (s1 := snd (startRequest remote tgt false false s)).
  set (s2 := snd (Begin remote tgt s1)).
  set (s3 := snd (Execute remote tgt "b" ∅ 1 None
                    (snd (Execute remote tgt "a" ∅ 1 None s2)))).
  assert ([query "a"; query "b"] <> []) as Hne by discriminate.
  exact (@ExecuteBatch_transaction_commit plain remote tgt [query "a"; query "b"] None
           s s1 1 s2 ["a"; "b"] s3 Hne eq_refl eq_refl eq_refl).
Defined.

(** BeginExecuteBatch asked to run a batch as a transaction of its own. *)
Lemma BeginExecuteBatch_asTransaction_witness :
  let s := server false StateServing TabletType_MASTER in
  exists msg,
    BeginExecuteBatch remote (to TabletType_MASTER) [query "a"] true None s =
    ((([], 1), Some (TabletErr (NewTabletError ErrorCode_BAD_INPUT msg))),
     @set_backend plain [EvBegin 1] s).
Proof.
  intros s.
  assert (1 <> 0) as Hid by lia.
  exact (@BeginExecuteBatch_asTransaction plain remote (to TabletType_MASTER)
           [query "a"] None s 1 (@set_backend plain [EvBegin 1] s) eq_refl Hid).
Defined.

(** BeginExecute with a query that fails: transaction 1 stays open. *)
Lemma BeginExecute_runs_query_witness :
  let s := server false StateServing TabletType_MASTER in
  BeginExecute remote (to TabletType_MASTER) "fail" ∅ None s =
    (((None, 1), Some (TabletErr duplicate_key)),
     @set_backend plain [EvBegin 1; EvExecute "fail" 1] s).
Proof.
  intros s.
  exact (@BeginExecute_runs_query plain remote (to TabletType_MASTER) "fail" ∅ None
           s 1 (@set_backend plain [EvBegin 1] s) eq_refl).
Defined.

(** An acknowledgement that succeeds, and a generator that fails. *)
Lemma execDML_outcome_witness :
  let s := server false StateServing TabletType_MASTER in
  @execDML plain remote (to TabletType_MASTER) Busy.rows Busy.ack_query s =
    ((3, None), @set_backend plain [EvBegin 1; EvExecute "ack" 1; EvCommit 1] s) /\
  @execDML plain remote (to TabletType_MASTER) Busy.rows Busy.no_such_table s =
    ((0, Some (TabletErr (NewTabletError ErrorCode_BAD_INPUT "message table not found"))),
     s).
Proof.
  intros s.
  set (tgt := to TabletType_MASTER).
  set (s1 := snd (startRequest remote tgt false false s)).
  set (s2 := snd (Begin remote tgt s1)).
  set (s3 := snd (Execute remote tgt "ack" ∅ 1 None s2)).
  split.
  - exact (proj2 (proj2 (@execDML_outcome plain remote tgt Busy.rows Busy.ack_query
                           s s1 eq_refl))
             "ack" ∅ [] 1 s2 "ack" s3 eq_refl eq_refl eq_refl).
  - exact (proj1 (@execDML_outcome plain remote tgt Busy.rows Busy.no_such_table
                    s s1 eq_refl)
             (OtherErr "message table not found") [] eq_refl).
Defined.

(** Valid parameters: one split count, the EQUAL_SPLITS algorithm. *)
Lemma split_panics_unreachable_witness :
  let t := {| Keyspace := "ks"; Shard := "0"; Target_TabletType := TabletType_RDONLY |} in
  @validateSplitQueryParameters plain (Some t) (query "select id from t") [] 4 0
    SplitQueryRequest_EQUAL_SPLITS = Done None /\
  (forall b,
     @createSplitParams plain (query "select id from t") [] 4 0 b =
     (Done (inl (query "select id from t")), b ++ [EvSplitParams])) /\
  (forall splitParams b,
     @createSplitQueryAlgorithmObject plain SplitQueryRequest_EQUAL_SPLITS splitParams b =
     (Done (inl SplitQueryRequest_EQUAL_SPLITS),
      b ++ [EvAlgorithm SplitQueryRequest_EQUAL_SPLITS])).
Proof.
  intros t.
  pose proof (@split_panics_unreachable plain t (query "select id from t") [] 4 0
                SplitQueryRequest_EQUAL_SPLITS eq_refl) as (Hparams & Halgorithm & _).
  split; [reflexivity|]. split.
  - intros b. exact (Hparams b).
  - intros splitParams b. exact (Halgorithm splitParams b).
Defined.

(** The controller without subscribers, and with one. *)
Lemma channels_bounded_preserved_witness :
  let s0 := server false StateServing TabletType_MASTER in
  let s := snd (streamHealthRegister s0) in
  channels_bounded s0 /\ channels_bounded s /\
  channels_bounded (snd (streamHealthRegister s)) /\
  channels_bounded (streamHealthUnregister 0 s) /\
  channels_bounded (BroadcastHealth 8 None s).
Proof.
  intros s0 s.
  assert (@channels_bounded plain s0) as Hb0.
  { intros id c Hc.
    change ((∅ : gmap Z (Chan (@StreamHealthResponse plain))) !! id = Some c) in Hc.
    by rewrite lookup_empty in Hc. }
  pose proof (proj1 (@channels_bounded_preserved plain s0 Hb0)) as Hb.
  pose proof (@channels_bounded_preserved plain s Hb) as (Hreg & Hunreg & Hcast).
  split; [exact Hb0|]. split; [exact Hb|]. split; [exact Hreg|].
  split; [exact (Hunreg 0) | exact (Hcast 8 None)].
Defined.

(** The first two subscribers of a controller get the ids 0 and 1. *)
Lemma streamHealthRegister_fresh_witness :
  let s0 := server false StateServing TabletType_MASTER in
  let s := snd (streamHealthRegister s0) in
  let r := streamHealthRegister s in
  ids_fresh s0 /\ fst (fst r) = 1 /\
  streamHealthMap s !! 1 = None /\
  streamHealthMap (snd r) !! 1 = Some (make_chan 10) /\
  ids_fresh (snd r) /\
  streamHealthMap (streamHealthUnregister 1 (snd r)) = streamHealthMap s.
Proof.
  intros s0 s r.
  assert (@ids_fresh plain s0) as Hfresh0.
  { intros id c Hc.
    change ((∅ : gmap Z (Chan (@StreamHealthResponse plain))) !! id = Some c) in Hc.
    by rewrite lookup_empty in Hc. }
  assert (- 2 ^ 63 <= streamHealthIndex s0 < 2 ^ 63 - 1) as Hrange0
    by (vm_compute; split; [discriminate | reflexivity]).
  pose proof (@streamHealthRegister_fresh plain s0 Hfresh0 Hrange0)
    as (_ & _ & _ & Hfresh & _).
  assert (- 2 ^ 63 <= streamHealthIndex s < 2 ^ 63 - 1) as Hrange
    by (vm_compute; split; [discriminate | reflexivity]).
  pose proof (@streamHealthRegister_fresh plain s Hfresh Hrange)
    as (Hnone & Hsome & _ & Hids & Hback).
  split; [exact Hfresh0|]. split; [reflexivity|]. split; [exact Hnone|].
  split; [exact Hsome|]. split; [exact Hids | exact Hback].
Defined.

(** Twelve broadcasts to a subscriber that never reads: the first ten
    snapshots are queued, the last two are dropped. *)
Lemma BroadcastHealth_all_slow_subscriber_witness :
  let s := snd (streamHealthRegister (server false StateServing TabletType_MASTER)) in
  let updates := map (fun n => (Z.of_nat n, None)) (seq 1 12) in
  streamHealthMap (BroadcastHealth_all updates s) !! 0 =
  Some {| chan_cap := 10;
          chan_buf := map (fun n => health_snapshot (Z.of_nat n) None s) (seq 1 10) |}.
Proof.
  intros s updates.
  assert (streamHealthMap s !! 0 = Some (make_chan 10)) as Hc by reflexivity.
  assert (length (chan_buf (@make_chan (@StreamHealthResponse plain) 10))
          <= chan_cap (@make_chan (@StreamHealthResponse plain) 10))%nat as Hlen
    by (simpl; lia).
  exact (@BroadcastHealth_all_slow_subscriber plain updates s 0 (make_chan 10) Hc Hlen).
Defined.

(** A few more runs of the controller. *)

Example CheckMySQL_stops_service :
  let s := server false StateServing TabletType_MASTER in
  @CheckMySQL plain Busy.unreachable s =
  @set_backend plain
    [EvService messager_Close; EvService (te_Close false);
     EvService streamQList_TerminateAll; EvService updateStreamList_Stop;
     EvService watcher_Close; EvService txThrottler_Close; EvService qe_Close]
    (server false StateNotConnected TabletType_MASTER).
Proof. reflexivity. Qed.

Example lameduck_is_healthy :
  let s := EnterLameduck (server false StateServing TabletType_MASTER) in
  IsServing s = false /\
  IsHealthy s = (None, @set_backend plain [EvExecute "select 1 from dual" 0] s).
Proof. split; reflexivity. Qed.

Example StartService_serves :
  let t := {| Keyspace := "ks"; Shard := "0"; Target_TabletType := TabletType_REPLICA |} in
  let s := EnterLameduck (server false StateNotConnected TabletType_MASTER) in
  fst (@StartService plain (fun log => log) t s) = None /\
  state (snd (@StartService plain (fun log => log) t s)) = StateServing /\
  target (snd (@StartService plain (fun log => log) t s)) = t /\
  lameduck (snd (@StartService plain (fun log => log) t s)) = 0.
Proof. repeat split. Qed.

Example StartService_twice_fails :
  let t := {| Keyspace := "ks"; Shard := "0"; Target_TabletType := TabletType_REPLICA |} in
  let s := server false StateServing TabletType_MASTER in
  @StartService plain (fun log => log) t s =
  (Some (TabletErr (NewTabletError ErrorCode_UNKNOWN_ERROR
           "InitDBConfig failed, current state: SERVING")), s).
Proof. reflexivity. Qed.

End MoreInstances.
